(** * fsradio: the connection and command-dispatch core of [RadioService]

    Shallow embedding of [RadioService] from [fsradio_gui.py]:
    - [RadioService._normalize_candidates] (the endpoint resolver) over
      Python strings modelled as [list ascii];
    - [RadioService.connect], [is_connected], [_require] and the nine
      guarded wrappers, as explicit state passing over the service record,
      with the external [AFSAPI] transport as a record of functions and an
      event log of the transport calls made;
    - the [GuiView] layer on top of it: [_load_config] (with the prompts and
      [get_last_mode_from_api] as functions), [_save_config], the control
      handlers, the preset labels of [build_buttons], and the [do_connect]
      and [after_ok] steps of [on_connect]. *)

From Stdlib Require Import List String Ascii ZArith Bool Lia DecimalString.
From Stdlib Require QArith_base DecimalNat.
Import ListNotations.
Open Scope list_scope.

(** ** Python strings *)

Definition str := list ascii.

Definition S_ (s : string) : str := list_ascii_of_string s.

(** A character of a [str] is a code point below 256 (Latin-1).
    [str.isspace] on that range: \t \n \x0b \x0c \r, \x1c-\x1f, the
    space, \x85 and \xa0, the characters [str.strip()] removes. *)
Definition is_py_space (c : ascii) : bool :=
  let n := nat_of_ascii c in
  ((9 <=? n) && (n <=? 13)) || ((28 <=? n) && (n <=? 32)) || (n =? 133) || (n =? 160)%nat.

Fixpoint lstrip (s : str) : str :=
  match s with
  | [] => []
  | c :: t => if is_py_space c then lstrip t else s
  end.

(** [s.rstrip(chars)] for a predicate on the stripped characters. *)
Fixpoint rstrip_by (p : ascii -> bool) (s : str) : str :=
  match s with
  | [] => []
  | c :: t =>
      match rstrip_by p t with
      | [] => if p c then [] else [c]
      | r => c :: r
      end
  end.

(** [s.strip()] *)
Definition py_strip (s : str) : str := rstrip_by is_py_space (lstrip s).

(** [s.rstrip("/")] *)
Definition rstrip_slash (s : str) : str :=
  rstrip_by (fun c => Ascii.eqb c "/"%char) s.

Fixpoint startswith (s p : str) {struct p} : bool :=
  match p, s with
  | [], _ => true
  | a :: p', b :: s' => Ascii.eqb a b && startswith s' p'
  | _ :: _, [] => false
  end.

Definition str_eqb (a b : str) : bool :=
  if list_eq_dec ascii_dec a b then true else false.

(** [sub in s] for a one-character [sub] *)
Definition contains_char (c : ascii) (s : str) : bool :=
  existsb (Ascii.eqb c) s.

(** [s.split(sep, 1)[1]]: the text after the first occurrence of [sep];
    [None] when [sep] does not occur (the index raises [IndexError]). *)
Fixpoint split1_after (sep s : str) : option str :=
  if startswith s sep then Some (skipn (List.length sep) s)
  else match s with
       | [] => None
       | _ :: t => split1_after sep t
       end.

(** The regular expression [/(device|fsapi)(/)?$] matched at the start of
    [s]: a slash, one of the two alternatives, an optional slash, then the
    end of the string (the input is stripped, so [$] is the end). *)
Definition re_root_match_here (s : str) : bool :=
  existsb (fun alt =>
    existsb (fun opt => str_eqb s (S_ "/" ++ S_ alt ++ S_ opt))
      [""; "/"]%string)
    ["device"; "fsapi"]%string.

(** [re.search]: a match starting at some position of [s]. *)
Fixpoint re_search_root (s : str) : bool :=
  re_root_match_here s ||
  match s with
  | [] => false
  | _ :: t => re_search_root t
  end.

(** The dedupe loop with its [seen] set. *)
Fixpoint dedupe_aux (seen : list str) (cs : list str) : list str :=
  match cs with
  | [] => []
  | c :: rest =>
      if existsb (str_eqb c) seen then dedupe_aux seen rest
      else c :: dedupe_aux (c :: seen) rest
  end.

Definition dedupe (cs : list str) : list str := dedupe_aux [] cs.

(** [s] after the scheme step: [http://] prepended unless [s] starts with
    [http://] or [https://]. *)
Definition with_scheme (s : str) : str :=
  if startswith s (S_ "http://") || startswith s (S_ "https://") then s
  else S_ "http://" ++ s.

(** [RadioService._normalize_candidates]; [None] is the [IndexError] raised
    by [host_port.split("//", 1)[1]] when [host_port] has no [//]. *)
Definition normalize_candidates (user_input : str) : option (list str) :=
  let s := py_strip user_input in
  match s with
  | [] => Some []
  | _ =>
    let s := with_scheme s in
    if re_search_root s then Some [s]
    else
      let host_port := rstrip_slash s in
      match split1_after (S_ "//") host_port with
      | None => None
      | Some host_only =>
          let has_port := contains_char ":"%char host_only in
          let candidates :=
            [ if has_port then host_port ++ S_ "/device"
              else host_port ++ S_ ":80/device";
              if has_port then host_port ++ S_ "/fsapi"
              else host_port ++ S_ ":80/fsapi";
              host_port ] in
          Some (dedupe candidates)
      end
  end.

(** ** The service *)

(** Results of Python calls: a value or a raised exception. *)
Inductive result (A E : Type) : Type :=
| Ok (a : A)
| Err (e : E).
Arguments Ok {A E} a.
Arguments Err {A E} e.

Section Service.

(** [Handle] is an [AFSAPI] instance, [Cause] an exception raised by the
    transport, [Value] what an [AFSAPI] coroutine returns and [Preset] a
    preset object as [get_presets] yields it. *)
Context {Handle Cause Value Preset : Type}.

(** [bool(x)] and [int(x)] applied to a transport result; [int] may raise
    ([None]). *)
Context (py_bool : Value -> bool) (py_int : Value -> option Z).

(** Whether [from afsapi import AFSAPI] succeeded ([AFSAPI is not None]). *)
Context (afsapi_loaded : bool).

(** The transport calls a guarded wrapper forwards, with their arguments
    after the wrappers' [bool(on)] / [int(value)]. *)
Inductive cmd : Type :=
| GetFriendlyName
| GetPower
| SetPower (on : bool)
| GetVolume
| SetVolume (value : Z)
| GetModes
| SetMode (mode : str)
| GetPresets
| RecallPreset (preset : Preset).

(** The external [AFSAPI] capability: [AFSAPI.create(base, pin, timeout)]
    and the method calls on an instance. *)
Record transport : Type := {
  t_create : str -> Z -> Z -> result Handle Cause;
  t_call : Handle -> cmd -> result Value Cause
}.

(** Instrumentation of the transport: every call that reaches it. *)
Inductive event : Type :=
| ECreate (base : str)
| ECall (c : cmd).

(** Exceptions leaving the service. [Raised c] is the transport's own
    exception [c], propagated unchanged by [_run_coro]. *)
Inductive error : Type :=
| DependencyMissing
| IndexErr
| ConnectFailed (tried : list str) (last_err : option Cause)
| NotConnected
| Raised (c : Cause)
| CoercionErr.

(** The fields of a [RadioService] object ([_loop] and [_thread] only run
    coroutines and are left out). *)
Record service : Type := mk_service {
  api : option Handle;
  connected : bool;
  url_used : option str;
  pin : Z;
  timeout : Z
}.

(** [RadioService.__init__] *)
Definition init : service :=
  {| api := None; connected := false; url_used := None; pin := 1234; timeout := 2 |}.

Variable T : transport.

(** The [_create] coroutine: [AFSAPI.create] then the
    [get_friendly_name] probe. *)
Definition create_and_probe (base : str) (p t : Z) : result Handle Cause * list event :=
  match t_create T base p t with
  | Err e => (Err e, [ECreate base])
  | Ok a =>
      match t_call T a GetFriendlyName with
      | Err e => (Err e, [ECreate base; ECall GetFriendlyName])
      | Ok _ => (Ok a, [ECreate base; ECall GetFriendlyName])
      end
  end.

(** The [for base in ...] loop of [connect] with [last_err]; the
    [except Exception] branch continues with the next candidate, success
    sets [_api], [_connected], [url_used] and breaks. *)
Fixpoint connect_loop (cands : list str) (s : service) (last_err : option Cause)
  : service * option Cause * list event :=
  match cands with
  | [] => (s, last_err, [])
  | base :: rest =>
      let '(r, ev) := create_and_probe base (pin s) (timeout s) in
      match r with
      | Ok a =>
          ({| api := Some a; connected := true; url_used := Some base;
              pin := pin s; timeout := timeout s |}, last_err, ev)
      | Err e =>
          let '(s', le, ev') := connect_loop rest s (Some e) in
          (s', le, ev ++ ev')
      end
  end.

(** [RadioService.connect]. The DNS check swallows its exceptions and
    touches no field, so it is left out; [pin] and [timeout] are already
    integers. The candidate list is computed when the loop starts, after
    the fields are reset. *)
Definition connect (s : service) (user_url : str) (p t : Z)
  : result unit error * service * list event :=
  if negb afsapi_loaded then (Err DependencyMissing, s, [])
  else
    let s0 := {| api := None; connected := false; url_used := None;
                 pin := p; timeout := t |} in
    match normalize_candidates user_url with
    | None => (Err IndexErr, s0, [])
    | Some cands =>
        let '(s1, last_err, ev) := connect_loop cands s0 None in
        if connected s1 then (Ok tt, s1, ev)
        else (Err (ConnectFailed cands last_err), s1, ev)
    end.

(** [RadioService.is_connected] *)
Definition is_connected (s : service) : bool :=
  connected s && match api s with Some _ => true | None => false end.

(** [RadioService._require], returning the [_api] the wrapper then uses. *)
Definition require (s : service) : result Handle error :=
  if is_connected s then
    match api s with
    | Some a => Ok a
    | None => Err NotConnected
    end
  else Err NotConnected.

(** What a wrapper returns: [get_power] applies [bool()], [get_volume]
    applies [int()], the others return the coroutine's value. *)
Inductive ret : Type :=
| RVal (v : Value)
| RBool (b : bool)
| RInt (z : Z)
| RUnit.

Definition coerce (c : cmd) (v : Value) : result ret error :=
  match c with
  | GetPower => Ok (RBool (py_bool v))
  | GetVolume =>
      match py_int v with
      | Some z => Ok (RInt z)
      | None => Err CoercionErr
      end
  | _ => Ok (RVal v)
  end.

(** A guarded wrapper: [self._require()], then the transport call through
    [_run_coro], whose exception propagates unchanged. *)
Definition guarded (s : service) (c : cmd) : result ret error * list event :=
  match require s with
  | Err e => (Err e, [])
  | Ok a =>
      match t_call T a c with
      | Err e => (Err (Raised e), [ECall c])
      | Ok v => (coerce c v, [ECall c])
      end
  end.

(** The public operations of [RadioService]. *)
Inductive op : Type :=
| OpConnect (user_url : str) (p t : Z)
| OpIsConnected
| OpCmd (c : cmd).

Definition step (s : service) (o : op) : result ret error * service * list event :=
  match o with
  | OpConnect u p t =>
      let '(r, s', ev) := connect s u p t in
      (match r with Ok _ => Ok RUnit | Err e => Err e end, s', ev)
  | OpIsConnected => (Ok (RBool (is_connected s)), s, [])
  | OpCmd c => let '(r, ev) := guarded s c in (r, s, ev)
  end.

(** A sequence of operations on one service, from one caller. *)
Fixpoint run (s : service) (os : list op) : service :=
  match os with
  | [] => s
  | o :: rest => let '(_, s', _) := step s o in run s' rest
  end.

End Service.

(** ** Observations used in the statements *)

(** The two path roots, each with or without a trailing slash. *)
Definition resource_suffixes : list str :=
  [S_ "/device"; S_ "/device/"; S_ "/fsapi"; S_ "/fsapi/"].

(** The URLs handed to [AFSAPI.create], in order. *)
Definition attempted {Preset : Type} (ev : list (@event Preset)) : list str :=
  flat_map (fun e => match e with ECreate b => [b] | ECall _ => [] end) ev.

(** Creating a transport at [base] or probing it raises. *)
Definition attempt_fails {Handle Cause Value Preset : Type}
  (T : @transport Handle Cause Value Preset) (p t : Z) (base : str) : Prop :=
  exists e, fst (create_and_probe T base p t) = Err e.

(** The session invariant: connected iff a handle is present that a
    successful [create] and [get_friendly_name] probe at [url_used]
    returned, and [url_used] is set iff connected. *)
Definition session_inv {Handle Cause Value Preset : Type}
  (T : @transport Handle Cause Value Preset) (s : @service Handle) : Prop :=
  (connected s = true <->
     exists a u v, api s = Some a /\ url_used s = Some u /\
       t_create T u (pin s) (timeout s) = Ok a /\ t_call T a GetFriendlyName = Ok v) /\
  (url_used s <> None <-> connected s = true).

(** ** A concrete transport and Python coercions, for the witnesses *)

(** [bool(n)] and [int(n)] on an integer result. *)
Definition demo_bool (n : nat) : bool := negb (Nat.eqb n 0).
Definition demo_int (n : nat) : option Z := Some (Z.of_nat n).

(** A radio that answers only at http://192.168.0.153:80/fsapi and refuses
    [set_volume]. *)
Definition demo_T : @transport nat string nat nat :=
  {| t_create := fun base _ _ =>
       if str_eqb base (S_ "http://192.168.0.153:80/fsapi") then Ok 7
       else Err "connection refused"%string;
     t_call := fun _ c =>
       match c with
       | GetFriendlyName => Ok 1
       | SetVolume _ => Err "HTTP 403"%string
       | _ => Ok 0
       end |}.

(** A transport whose [create] always raises. *)
Definition refusing_T : @transport nat string nat nat :=
  {| t_create := fun _ _ _ => Err "connection refused"%string;
     t_call := fun _ _ => Ok 0 |}.

(** A connected service. *)
Definition demo_connected : @service nat :=
  {| api := Some 7; connected := true;
     url_used := Some (S_ "http://192.168.0.153:80/fsapi"); pin := 1234; timeout := 2 |}.

(** ** Python values of the GUI layer

    The JSON values of the config file and of the status reply, the values
    a [dict]-shaped preset may hold; a [dict] is an association list with
    unique keys, in insertion order. *)
Inductive pyval : Type :=
| PNone
| PBool (b : bool)
| PInt (z : Z)
| PFloat (q : QArith_base.Q)
| PStr (s : str)
| PList (l : list pyval)
| PDict (d : list (str * pyval)).

(** Truth value ([bool(x)]). *)
Definition truthy (v : pyval) : bool :=
  match v with
  | PNone => false
  | PBool b => b
  | PInt z => negb (Z.eqb z 0)
  | PFloat q => negb (QArith_base.Qeq_bool q (QArith_base.inject_Z 0))
  | PStr s => match s with [] => false | _ => true end
  | PList l => match l with [] => false | _ => true end
  | PDict d => match d with [] => false | _ => true end
  end.

(** [a or b] *)
Definition py_or (a b : pyval) : pyval := if truthy a then a else b.

(** [x in ("", None)] *)
Definition empty_or_none (v : pyval) : bool :=
  match v with
  | PNone => true
  | PStr [] => true
  | _ => false
  end.

(** [d[k]] when present *)
Fixpoint dict_lookup (d : list (str * pyval)) (k : str) : option pyval :=
  match d with
  | [] => None
  | (k', v) :: rest => if str_eqb k k' then Some v else dict_lookup rest k
  end.

(** [d.get(k, default)] *)
Definition dict_get (d : list (str * pyval)) (k : str) (default : pyval) : pyval :=
  match dict_lookup d k with Some v => v | None => default end.

(** [d[k] = v]: an existing key keeps its place, a new one is appended. *)
Fixpoint dict_set (d : list (str * pyval)) (k : str) (v : pyval) : list (str * pyval) :=
  match d with
  | [] => [(k, v)]
  | (k', v') :: rest =>
      if str_eqb k k' then (k', v) :: rest else (k', v') :: dict_set rest k v
  end.

(** [str(n)] for a non-negative integer. *)
Definition str_of_nat (n : nat) : str :=
  S_ (NilEmpty.string_of_uint (Nat.to_uint n)).

(** [int(s)] for a [str] [s] (base 10). CPython's
    [PyLong_FromUnicodeObject] first turns the Unicode whitespace above
    \x7e (here \x85 and \xa0) into spaces and stops at any other
    character above \x7e, then [PyLong_FromString] skips the ASCII
    whitespace \t \n \x0b \x0c \r and space around an optional sign and
    decimal digits with single underscores between digits; more than
    [sys.get_int_max_str_digits()] = 4300 digits raise. [None] is the
    [ValueError]. *)
Definition is_int_space (c : ascii) : bool :=
  let n := nat_of_ascii c in
  ((9 <=? n) && (n <=? 13)) || (n =? 32) || (n =? 133) || (n =? 160)%nat.

Fixpoint lstrip_by (p : ascii -> bool) (s : str) : str :=
  match s with
  | [] => []
  | c :: t => if p c then lstrip_by p t else s
  end.

Definition int_strip (s : str) : str := rstrip_by is_int_space (lstrip_by is_int_space s).

Definition digit_val (c : ascii) : option Z :=
  let n := nat_of_ascii c in
  if ((48 <=? n) && (n <=? 57))%nat then Some (Z.of_nat (n - 48)) else None.

Fixpoint int_digits (acc : Z) (after_us : bool) (s : str) : option Z :=
  match s with
  | [] => if after_us then None else Some acc
  | c :: t =>
      match digit_val c with
      | Some d => int_digits (acc * 10 + d) false t
      | None =>
          if Ascii.eqb c "_"%char then
            if after_us then None else int_digits acc true t
          else None
      end
  end.

Definition int_unsigned (s : str) : option Z :=
  match s with
  | c :: _ => match digit_val c with Some _ => int_digits 0 false s | None => None end
  | [] => None
  end.

(** The digits [PyLong_FromString] counts against the limit. *)
Definition digit_count (s : str) : nat :=
  List.length (filter (fun c => match digit_val c with Some _ => true | None => false end) s).

Definition max_str_digits : nat := 4300.

Definition py_int_of_str (s : str) : option Z :=
  let s := int_strip s in
  if Nat.ltb max_str_digits (digit_count s) then None
  else
    match s with
    | c :: t =>
        if Ascii.eqb c "-"%char then option_map Z.opp (int_unsigned t)
        else if Ascii.eqb c "+"%char then int_unsigned t
        else int_unsigned (c :: t)
    | [] => None
    end.

(** The label of the [idx]-th preset button in [build_buttons]
    ([on_load_presets]). *)
Definition preset_label (idx : nat) (p : pyval) : pyval :=
  let label :=
    match p with
    | PDict d =>
        py_or (py_or (dict_get d (S_ "name") PNone) (dict_get d (S_ "label") PNone))
              (dict_get d (S_ "title") PNone)
    | _ => PNone
    end in
  if truthy label then label else PStr (S_ "Preset " ++ str_of_nat idx).

(** The labels of [enumerate(presets, start=1)]. *)
Fixpoint preset_labels_from (idx : nat) (presets : list pyval) : list pyval :=
  match presets with
  | [] => []
  | p :: rest => preset_label idx p :: preset_labels_from (S idx) rest
  end.

Definition preset_labels (presets : list pyval) : list pyval :=
  preset_labels_from 1 presets.

(** ** Config file and GUI handlers *)

Definition config := list (str * pyval).

(** [DEFAULT_CONFIG] *)
Definition default_config : config :=
  [(S_ "url", PStr (S_ "192.168.0.153")); (S_ "pin", PInt 1234);
   (S_ "timeout", PInt 2); (S_ "last_mode", PStr (S_ "IRadio"))].

(** [value if value not in ("", None) else default] *)
Definition or_default (v default : pyval) : pyval :=
  if empty_or_none v then default else v.

(** The value stored for a prompted key: the answer, or the default when
    the answer is "" or the dialog was cancelled. *)
Definition answer_or (a : option str) (default : pyval) : pyval :=
  or_default (match a with Some s => PStr s | None => PNone end) default.

(** The value stored for a prompted [pin] or [timeout]: the answer's
    integer, or the default when it does not parse or was cancelled. *)
Definition int_answer_or (a : option str) (default : Z) : pyval :=
  match a with
  | Some s => match py_int_of_str s with Some z => PInt z | None => PInt default end
  | None => PInt default
  end.

(** Exceptions raised out of [_load_config]. *)
Inductive py_exc : Type :=
| TypeError.

(** [get_last_mode_from_api(url, pin)]. [http url pin] is the decoded JSON
    body of the [GET {url}/api/status] request, or [None] when the request,
    [raise_for_status] or [response.json()] raises; [data.get] on a
    non-object raises [AttributeError], also caught. *)
Definition get_last_mode_from_api (http : pyval -> pyval -> option pyval)
  (url pin : pyval) : pyval :=
  match http url pin with
  | Some (PDict data) => dict_get data (S_ "mode") (PStr (S_ "DAB"))
  | _ => PStr (S_ "DAB")
  end.

(** The [missing] comprehension of [_load_config], in [DEFAULT_CONFIG]
    order. *)
Definition missing_keys (cfg : config) : config :=
  filter (fun '(k, _) =>
            match dict_lookup cfg k with
            | None => true
            | Some v => empty_or_none v
            end) default_config.

(** The value computed for one missing key: [ask key] is the answer of
    [simpledialog.askstring] ([None] when cancelled). *)
Definition prompt_value (ask : str -> option str) (http : pyval -> pyval -> option pyval)
  (cfg : config) (key : str) (default : pyval) : pyval :=
  let value := match ask key with Some s => PStr s | None => PNone end in
  if str_eqb key (S_ "last_mode") then
    get_last_mode_from_api http (dict_get cfg (S_ "url") default)
                                (dict_get cfg (S_ "pin") default)
  else if str_eqb key (S_ "pin") || str_eqb key (S_ "timeout") then
    match ask key with
    | Some s => match py_int_of_str s with Some z => PInt z | None => default end
    | None => default
    end
  else value.

(** The [for key, default in missing.items()] loop. *)
Fixpoint fill_missing (ask : str -> option str) (http : pyval -> pyval -> option pyval)
  (cfg : config) (missing : config) : config :=
  match missing with
  | [] => cfg
  | (key, default) :: rest =>
      let value := prompt_value ask http cfg key default in
      fill_missing ask http
        (dict_set cfg key (if empty_or_none value then default else value)) rest
  end.

(** [GuiView._load_config]. [file] is the decoded JSON of [config.json],
    [None] when the file is absent or reading or decoding it raises. A
    decoded value that is not an object makes the [in] test or the item
    assignment raise [TypeError]. Writing the file back is guarded by
    [except Exception] and left out. *)
Definition load_config (file : option pyval) (ask : str -> option str)
  (http : pyval -> pyval -> option pyval) : result config py_exc :=
  let loaded := match file with Some v => v | None => PDict [] end in
  match loaded with
  | PDict cfg => Ok (fill_missing ask http cfg (missing_keys cfg))
  | _ => Err TypeError
  end.

(** [int(text.strip())] with the [except ValueError] fallback. *)
Definition int_or (text : str) (default : pyval) : pyval :=
  match py_int_of_str (py_strip text) with Some z => PInt z | None => default end.

(** [GuiView._save_config] on the entry texts and the mode combobox text,
    before the file is written. *)
Definition save_config (cfg : config) (url_text pin_text timeout_text mode_text : str)
  : config :=
  let cfg := dict_set cfg (S_ "url") (PStr (py_strip url_text)) in
  let cfg := dict_set cfg (S_ "pin")
               (int_or pin_text (dict_get default_config (S_ "pin") PNone)) in
  let cfg := dict_set cfg (S_ "timeout")
               (int_or timeout_text (dict_get default_config (S_ "timeout") PNone)) in
  dict_set cfg (S_ "last_mode")
    (int_or mode_text (dict_get default_config (S_ "last_mode") PNone)).

(** The widget texts [_save_config] reads. *)
Record widgets : Type := {
  url_text : str;
  pin_text : str;
  timeout_text : str;
  mode_text : str
}.

(** The [GuiView] fields the handlers read and write. *)
Record gui {Handle : Type} : Type := {
  service_of : @service Handle;
  during_init : bool;
  config_data : config
}.
Arguments gui : clear implicits.

Section Handlers.

Context {Handle Preset : Type}.

(** [on_power_toggle]: the command handed to [_async_call], if any. *)
Definition on_power_toggle (g : gui Handle) (power_var : bool) : option (@cmd Preset) :=
  if negb (is_connected (service_of g)) then None
  else Some (SetPower power_var).

(** [int(float(x))] truncates toward zero. *)
Definition int_of_float (q : QArith_base.Q) : Z :=
  Z.quot (QArith_base.Qnum q) (Zpos (QArith_base.Qden q)).

(** [on_volume_change] on the slider reading. *)
Definition on_volume_change (g : gui Handle) (slider : QArith_base.Q) : option (@cmd Preset) :=
  if during_init g || negb (is_connected (service_of g)) then None
  else Some (SetVolume (int_of_float slider)).

(** [on_mode_change]: [last_mode] is set to the mode text, then
    [_save_config] rewrites the config and writes the file ([write_ok]
    false: [write_text] raises, and the exception ends the handler before
    [_async_call]). *)
Definition on_mode_change (g : gui Handle) (w : widgets) (write_ok : bool)
  : gui Handle * option (@cmd Preset) :=
  if negb (is_connected (service_of g)) then (g, None)
  else
    let cfg := dict_set (config_data g) (S_ "last_mode") (PStr (mode_text w)) in
    let cfg := save_config cfg (url_text w) (pin_text w) (timeout_text w) (mode_text w) in
    let g' := {| service_of := service_of g; during_init := during_init g;
                 config_data := cfg |} in
    if write_ok then (g', Some (SetMode (mode_text w))) else (g', None).

(** [on_load_presets]: the [get_presets] call its worker thread makes. *)
Definition on_load_presets (g : gui Handle) : option (@cmd Preset) :=
  if negb (is_connected (service_of g)) then None else Some GetPresets.

(** [on_preset] *)
Definition on_preset (g : gui Handle) (preset : Preset) : option (@cmd Preset) :=
  if negb (is_connected (service_of g)) then None else Some (RecallPreset preset).

End Handlers.

(** What the mode combobox shows after [after_ok]. *)
Inductive mode_selection {Value : Type} : Type :=
| SelLast (m : pyval)
| SelFirst (m : Value)
| SelNone.
Arguments mode_selection : clear implicits.

(** [if last_mode in modes: ... elif modes: current(0)]; [py_eq] is [==]
    between a reported mode and the config value. *)
Definition select_mode {Value : Type} (py_eq : Value -> pyval -> bool)
  (last_mode : pyval) (modes : list Value) : mode_selection Value :=
  if existsb (fun m => py_eq m last_mode) modes then SelLast last_mode
  else match modes with
       | m :: _ => SelFirst m
       | [] => SelNone
       end.

Section AfterOk.

Context {Handle Cause Value Preset : Type}.
Context (py_bool : Value -> bool) (py_int : Value -> option Z).
Context (py_list : Value -> option (list Value)) (py_eq : Value -> pyval -> bool).
Variable T : @transport Handle Cause Value Preset.

(** The device reads of [after_ok] up to the mode selection:
    [get_friendly_name], [get_volume], [get_power], [list(get_modes())];
    [None] is the [except Exception] branch (the error dialog). The
    [last_mode] is [config_data.get("last_mode")]. *)
Definition after_ok_init (s : @service Handle) (cfg : config)
  : option (mode_selection Value) * list (@event Preset) :=
  match guarded py_bool py_int T s GetFriendlyName with
  | (Err _, ev1) => (None, ev1)
  | (Ok _, ev1) =>
    match guarded py_bool py_int T s GetVolume with
    | (Err _, ev2) => (None, ev1 ++ ev2)
    | (Ok _, ev2) =>
      match guarded py_bool py_int T s GetPower with
      | (Err _, ev3) => (None, ev1 ++ ev2 ++ ev3)
      | (Ok _, ev3) =>
        match guarded py_bool py_int T s GetModes with
        | (Ok (RVal v), ev4) =>
            match py_list v with
            | Some modes =>
                (Some (select_mode py_eq (dict_get cfg (S_ "last_mode") PNone) modes),
                 ev1 ++ ev2 ++ ev3 ++ ev4)
            | None => (None, ev1 ++ ev2 ++ ev3 ++ ev4)
            end
        | (_, ev4) => (None, ev1 ++ ev2 ++ ev3 ++ ev4)
        end
      end
    end
  end.

(** The combobox text after the selection: [mode_combo.set(last_mode)],
    [mode_combo.current(0)], or the text it had ([prev]). [tk_str] and
    [py_str] are Tk's text of a config value and of a reported mode. *)
Definition combo_text (tk_str : pyval -> str) (py_str : Value -> str)
  (sel : mode_selection Value) (prev : str) : str :=
  match sel with
  | SelLast v => tk_str v
  | SelFirst m => py_str m
  | SelNone => prev
  end.

(** [after_ok] as a whole: the reads above; then [_enable_controls(True)]
    (widget state only), [_save_config()] on the entry texts [w] and the
    combobox text, whose [write_text] raises when [write_ok] is false
    (the config is updated before that), [on_load_presets()], whose worker
    thread makes the [get_presets] call on the connected service, and the
    window title. The result is the selection shown when [after_ok]
    completes ([None]: the "Init error" dialog), the config, and the
    transport calls. *)
Definition after_ok (tk_str : pyval -> str) (py_str : Value -> str)
  (s : @service Handle) (cfg : config) (w : widgets) (write_ok : bool)
  : option (mode_selection Value) * config * list (@event Preset) :=
  match after_ok_init s cfg with
  | (None, ev) => (None, cfg, ev)
  | (Some sel, ev) =>
      let cfg' := save_config cfg (url_text w) (pin_text w) (timeout_text w)
                    (combo_text tk_str py_str sel (mode_text w)) in
      if write_ok then
        (Some sel, cfg',
         ev ++ (if is_connected s then snd (guarded py_bool py_int T s GetPresets) else []))
      else (None, cfg', ev)
  end.

End AfterOk.

(** What the [do_connect] worker of [on_connect] ends with: the
    "Connection failed" dialog shows either the [ValueError] of [int(pin)]
    or [int(timeout)], or the exception of [connect]. *)
Inductive connect_failure {Cause : Type} : Type :=
| ValueErr
| ServiceErr (e : @error Cause).
Arguments connect_failure : clear implicits.

(** [on_connect] up to [after_ok]: the stripped entry texts, then
    [self.service.connect(url, int(pin), int(timeout))] in the worker, its
    arguments evaluated left to right. *)
Definition do_connect {Handle Cause Value Preset : Type} (afsapi_loaded : bool)
  (T : @transport Handle Cause Value Preset) (s : @service Handle) (w : widgets)
  : result unit (connect_failure Cause) * @service Handle * list (@event Preset) :=
  let url := py_strip (url_text w) in
  let pin := py_strip (pin_text w) in
  let timeout := py_strip (timeout_text w) in
  match py_int_of_str pin with
  | None => (Err ValueErr, s, [])
  | Some p =>
      match py_int_of_str timeout with
      | None => (Err ValueErr, s, [])
      | Some t =>
          match connect afsapi_loaded T s url p t with
          | (Ok u, s', ev) => (Ok u, s', ev)
          | (Err e, s', ev) => (Err (ServiceErr e), s', ev)
          end
      end
  end.

(** A key holding a value other than "" and [None]. *)
Definition key_filled (cfg : config) (k : str) : Prop :=
  exists v, dict_lookup cfg k = Some v /\ empty_or_none v = false.

(** ** Caller threads and the event loop

    [_run_coro] hands each coroutine to the one event loop with
    [asyncio.run_coroutine_threadsafe] and blocks the calling thread in
    [fut.result()]; there is no lock. The GUI calls the service from
    several threads at once ([_async_call], [on_load_presets]'s worker,
    [on_connect]'s [do_connect]). Below, a world holds the shared service,
    the caller threads, each with the operations it still has to make and
    the outcomes it got, and the loop's queue of submitted coroutines,
    which the loop starts in submission order. A coroutine runs on the
    loop until it awaits the device; while a device call is in flight the
    loop starts other coroutines. A schedule picks, at each step, a
    caller thread that runs on, the loop starting the next queued
    coroutine, or the device answering one in-flight call. Each step is a
    stretch of the code that runs without waiting (the DNS check of
    [connect], the [break] after a successful create and the coercions
    [bool()] / [int()] are taken together with the neighbouring step), so
    every run of the model is a run of the code. The loop thread is taken
    as started ([_ensure_loop]). *)

Section Interleaving.

Context {Handle Cause Value Preset : Type}.
Context (py_bool : Value -> bool) (py_int : Value -> option Z) (afsapi_loaded : bool).
Variable T : @transport Handle Cause Value Preset.

(** Where a caller thread is. *)
Inductive pc : Type :=
| TReady
  (** between two operations *)
| TSubmitted (c : @cmd Preset)
  (** a wrapper passed [_require()]; its coroutine [_c] is queued *)
| TInFlight (a : Handle) (c : @cmd Preset)
  (** the loop ran [_c], which read [self._api] (= [a]); the call [c] is
      awaiting the device *)
| TConnTry (tried rest : list str) (le : option Cause)
  (** [connect]'s [for] loop, with candidates [rest] still to try *)
| TCreateSubmitted (tried : list str) (base : str) (rest : list str) (le : option Cause)
  (** [connect] submitted [_create()] for [base] *)
| TCreateInFlight (tried : list str) (base : str) (p t : Z) (rest : list str)
    (le : option Cause).
  (** the loop ran [_create()], which read [self.pin] and [self.timeout];
      [AFSAPI.create] and the probe are awaiting the device *)

(** What an operation gave its caller. [OAttrErr]: [_c] found
    [self._api] to be [None] ([AttributeError]). *)
Inductive outcome : Type :=
| OCmd (r : result (@ret Value) (@error Cause))
| OConnect (r : result unit (@error Cause))
| OBool (b : bool)
| OAttrErr.

Record thread : Type := mk_thread {
  th_pc : pc;
  th_prog : list (@op Preset);
  th_out : list outcome
}.

Record world : Type := mk_world {
  w_svc : @service Handle;
  w_threads : list thread;
  w_queue : list nat;
  w_events : list (@event Preset)
}.

Inductive choice : Type :=
| Caller (i : nat)
| LoopStart
| LoopDone (i : nat).

Fixpoint set_nth {A : Type} (l : list A) (i : nat) (x : A) : list A :=
  match l, i with
  | [], _ => []
  | _ :: l', O => x :: l'
  | y :: l', S i' => y :: set_nth l' i' x
  end.

Definition set_thread (w : world) (i : nat) (th : thread) : world :=
  {| w_svc := w_svc w; w_threads := set_nth (w_threads w) i th;
     w_queue := w_queue w; w_events := w_events w |}.

Definition with_svc (w : world) (s : @service Handle) : world :=
  {| w_svc := s; w_threads := w_threads w; w_queue := w_queue w; w_events := w_events w |}.

Definition enqueue (w : world) (i : nat) : world :=
  {| w_svc := w_svc w; w_threads := w_threads w; w_queue := w_queue w ++ [i];
     w_events := w_events w |}.

Definition log (w : world) (ev : list (@event Preset)) : world :=
  {| w_svc := w_svc w; w_threads := w_threads w; w_queue := w_queue w;
     w_events := w_events w ++ ev |}.

(** Caller thread [i] runs on: it starts its next operation, or goes on
    in [connect]'s loop. A thread waiting in [fut.result()] cannot. *)
Definition caller_step (w : world) (i : nat) : option world :=
  match nth_error (w_threads w) i with
  | None => None
  | Some th =>
      let s := w_svc w in
      let out := th_out th in
      match th_pc th with
      | TReady =>
          match th_prog th with
          | [] => None
          | OpConnect u p t :: prog =>
              if negb afsapi_loaded then
                Some (set_thread w i (mk_thread TReady prog (out ++ [OConnect (Err DependencyMissing)])))
              else
                let s0 := {| api := None; connected := false; url_used := None;
                             pin := p; timeout := t |} in
                match normalize_candidates u with
                | None =>
                    Some (set_thread (with_svc w s0) i
                            (mk_thread TReady prog (out ++ [OConnect (Err IndexErr)])))
                | Some cands =>
                    Some (set_thread (with_svc w s0) i (mk_thread (TConnTry cands cands None) prog out))
                end
          | OpIsConnected :: prog =>
              Some (set_thread w i (mk_thread TReady prog (out ++ [OBool (is_connected s)])))
          | OpCmd c :: prog =>
              match require s with
              | Err e => Some (set_thread w i (mk_thread TReady prog (out ++ [OCmd (Err e)])))
              | Ok _ => Some (enqueue (set_thread w i (mk_thread (TSubmitted c) prog out)) i)
              end
          end
      | TConnTry tried (base :: rest) le =>
          Some (enqueue (set_thread w i (mk_thread (TCreateSubmitted tried base rest le)
                                           (th_prog th) out)) i)
      | TConnTry tried [] le =>
          Some (set_thread w i
                  (mk_thread TReady (th_prog th)
                     (out ++ [OConnect (if connected s then Ok tt
                                        else Err (ConnectFailed tried le))])))
      | _ => None
      end
  end.

(** The loop starts the coroutine at the head of its queue and runs it
    to its first await on the device. *)
Definition loop_start (w : world) : option world :=
  match w_queue w with
  | [] => None
  | i :: q =>
      let w' := {| w_svc := w_svc w; w_threads := w_threads w; w_queue := q;
                   w_events := w_events w |} in
      match nth_error (w_threads w) i with
      | None => None
      | Some th =>
          match th_pc th with
          | TSubmitted c =>
              match api (w_svc w) with
              | None => Some (set_thread w' i (mk_thread TReady (th_prog th) (th_out th ++ [OAttrErr])))
              | Some a => Some (set_thread w' i (mk_thread (TInFlight a c) (th_prog th) (th_out th)))
              end
          | TCreateSubmitted tried base rest le =>
              Some (set_thread w' i
                      (mk_thread (TCreateInFlight tried base (pin (w_svc w)) (timeout (w_svc w)) rest le)
                         (th_prog th) (th_out th)))
          | _ => None
          end
      end
  end.

(** The device answers thread [i]'s in-flight call; the coroutine ends
    and its caller resumes. After a successful create the caller sets
    [_api], [_connected] and [url_used] and leaves the loop. *)
Definition loop_done (w : world) (i : nat) : option world :=
  match nth_error (w_threads w) i with
  | None => None
  | Some th =>
      match th_pc th with
      | TInFlight a c =>
          let r := match t_call T a c with
                   | Err e => Err (Raised e)
                   | Ok v => coerce py_bool py_int c v
                   end in
          Some (log (set_thread w i (mk_thread TReady (th_prog th) (th_out th ++ [OCmd r]))) [ECall c])
      | TCreateInFlight tried base p t rest le =>
          let '(r, ev) := create_and_probe T base p t in
          match r with
          | Ok a =>
              let s := w_svc w in
              Some (log (set_thread
                      (with_svc w {| api := Some a; connected := true; url_used := Some base;
                                     pin := pin s; timeout := timeout s |}) i
                      (mk_thread TReady (th_prog th) (th_out th ++ [OConnect (Ok tt)]))) ev)
          | Err e =>
              Some (log (set_thread w i (mk_thread (TConnTry tried rest (Some e))
                                          (th_prog th) (th_out th))) ev)
          end
      | _ => None
      end
  end.

Definition sched_step (w : world) (ch : choice) : option world :=
  match ch with
  | Caller i => caller_step w i
  | LoopStart => loop_start w
  | LoopDone i => loop_done w i
  end.

(** A schedule run from a world; [None] when it picks a step that cannot
    be taken. *)
Fixpoint run_sched (w : world) (sch : list choice) : option world :=
  match sch with
  | [] => Some w
  | ch :: rest =>
      match sched_step w ch with
      | None => None
      | Some w' => run_sched w' rest
      end
  end.

Fixpoint in_flight_from (i : nat) (ts : list thread) : list nat :=
  match ts with
  | [] => []
  | th :: ts' =>
      match th_pc th with
      | TInFlight _ _ | TCreateInFlight _ _ _ _ _ _ => i :: in_flight_from (S i) ts'
      | _ => in_flight_from (S i) ts'
      end
  end.

(** The threads whose device call is in flight. *)
Definition in_flight (w : world) : list nat := in_flight_from 0 (w_threads w).

(** The threads inside [connect] (past its reset, before it returns). *)
Fixpoint connecting_from (i : nat) (ts : list thread) : list nat :=
  match ts with
  | [] => []
  | th :: ts' =>
      match th_pc th with
      | TConnTry _ _ _ | TCreateSubmitted _ _ _ _ | TCreateInFlight _ _ _ _ _ _ =>
          i :: connecting_from (S i) ts'
      | _ => connecting_from (S i) ts'
      end
  end.

Definition connecting (w : world) : list nat := connecting_from 0 (w_threads w).

(** Caller threads with their operations, before any has run. *)
Definition start_world (s : @service Handle) (progs : list (list (@op Preset))) : world :=
  {| w_svc := s; w_threads := map (fun prog => mk_thread TReady prog []) progs;
     w_queue := []; w_events := [] |}.

End Interleaving.

Arguments TReady {Handle Cause Preset}.
Arguments OAttrErr {Cause Value}.

(** ** A sample run of one caller thread

    With one caller the model gives what the sequential [step] gives:
    [connect] (the [/device] candidate refused, [/fsapi] taken),
    [get_power], and the refused [set_volume]. *)

Example one_caller_run :
  option_map (fun w => (w_svc w, map th_out (w_threads w), w_events w))
    (run_sched demo_bool demo_int true demo_T
       (@start_world nat string nat nat init
          [[OpConnect (S_ "192.168.0.153") 1234 2; OpCmd GetPower; OpCmd (SetVolume 3)]])
       [Caller 0; Caller 0; LoopStart; LoopDone 0; Caller 0; LoopStart; LoopDone 0;
        Caller 0; LoopStart; LoopDone 0; Caller 0; LoopStart; LoopDone 0]) =
  Some (demo_connected,
        [[OConnect (Ok tt); OCmd (Ok (RBool false));
          OCmd (Err (Raised "HTTP 403"%string))]],
        [ECreate (S_ "http://192.168.0.153:80/device");
         ECreate (S_ "http://192.168.0.153:80/fsapi"); ECall GetFriendlyName;
         ECall GetPower; ECall (SetVolume 3)]) /\
  (let '(r1, s1, ev1) := step demo_bool demo_int true demo_T init
                           (OpConnect (S_ "192.168.0.153") 1234 2) in
   let '(r2, s2, ev2) := step demo_bool demo_int true demo_T s1 (OpCmd GetPower) in
   let '(r3, s3, ev3) := step demo_bool demo_int true demo_T s2 (OpCmd (SetVolume 3)) in
   (r1, r2, r3, s3, ev1 ++ ev2 ++ ev3)) =
  (Ok RUnit, Ok (RBool false), Err (Raised "HTTP 403"%string), demo_connected,
   [ECreate (S_ "http://192.168.0.153:80/device");
    ECreate (S_ "http://192.168.0.153:80/fsapi"); ECall GetFriendlyName;
    ECall GetPower; ECall (SetVolume 3)]).
Proof. split; vm_compute; reflexivity. Qed.

(** ** Sample runs of the resolver *)

Example normalize_plain_ip :
  normalize_candidates (S_ "  192.168.0.153 ") =
  Some [S_ "http://192.168.0.153:80/device"; S_ "http://192.168.0.153:80/fsapi";
        S_ "http://192.168.0.153"].
Proof. vm_compute. reflexivity. Qed.

Example normalize_port :
  normalize_candidates (S_ "https://radio:8080/") =
  Some [S_ "https://radio:8080/device"; S_ "https://radio:8080/fsapi";
        S_ "https://radio:8080"].
Proof. vm_compute. reflexivity. Qed.

Example normalize_bare_scheme : normalize_candidates (S_ "https://") = None.
Proof. vm_compute. reflexivity. Qed.

Example normalize_empty : normalize_candidates (S_ " 	 ") = Some [].
Proof. vm_compute. reflexivity. Qed.

Example normalize_path : normalize_candidates (S_ "x/fsapi/") = Some [S_ "http://x/fsapi/"].
Proof. vm_compute. reflexivity. Qed.

(** ** Lemmas on the string functions *)

Lemma rstrip_by_app (p : ascii -> bool) (a b : str) :
  rstrip_by p (a ++ b) =
  match rstrip_by p b with
  | [] => rstrip_by p a
  | r => a ++ r
  end.
Proof.
  induction a as [|x a IH]; simpl.
  - destruct (rstrip_by p b); reflexivity.
  - rewrite IH. destruct (rstrip_by p b) as [|y r] eqn:Hb.
    + reflexivity.
    + destruct a; reflexivity.
Qed.

Lemma startswith_app (p r : str) : startswith (p ++ r) p = true.
Proof.
  induction p as [|a p IH]; simpl; [reflexivity|].
  rewrite Ascii.eqb_refl, IH. reflexivity.
Qed.

Lemma startswith_inv (s p : str) :
  startswith s p = true -> exists r, s = p ++ r.
Proof.
  revert s; induction p as [|a p IH]; intros s H.
  - exists s. reflexivity.
  - destruct s as [|b s]; simpl in H; [discriminate|].
    apply andb_prop in H as [Hab Hs].
    apply Ascii.eqb_eq in Hab; subst b.
    destruct (IH s Hs) as [r ->]. exists r. reflexivity.
Qed.

Lemma dedupe_aux_incl (seen l : list str) (x : str) :
  In x (dedupe_aux seen l) -> In x l.
Proof.
  revert seen; induction l as [|c l IH]; intros seen H; simpl in *; [exact H|].
  destruct (existsb (str_eqb c) seen).
  - right. exact (IH _ H).
  - destruct H as [H|H]; [left; exact H|right; exact (IH _ H)].
Qed.

Lemma re_search_root_suffix (pre sfx : str) :
  re_root_match_here sfx = true -> re_search_root (pre ++ sfx) = true.
Proof.
  intros H; induction pre as [|x pre IH].
  - destruct sfx; cbn [re_search_root app]; rewrite H; reflexivity.
  - cbn [re_search_root app]. rewrite IH, orb_true_r. reflexivity.
Qed.

Lemma with_scheme_https (s : str) :
  startswith s (S_ "https://") = true -> with_scheme s = s.
Proof.
  intros H. unfold with_scheme. rewrite H, orb_true_r. reflexivity.
Qed.

Lemma resource_suffix_matches (sfx : str) :
  In sfx resource_suffixes -> re_root_match_here sfx = true.
Proof.
  intros H; repeat (destruct H as [<-|H]; [vm_compute; reflexivity|]); destruct H.
Qed.

(** ** Claims on the endpoint resolver *)

(** C8: for the input "192.168.0.153" (no port), [_normalize_candidates]
    returns exactly http://192.168.0.153:80/device,
    http://192.168.0.153:80/fsapi and http://192.168.0.153, in this order,
    with no duplicates. *)
Theorem normalize_candidates_ip_example :
  normalize_candidates (S_ "192.168.0.153") =
    Some [S_ "http://192.168.0.153:80/device"; S_ "http://192.168.0.153:80/fsapi";
          S_ "http://192.168.0.153"] /\
  NoDup [S_ "http://192.168.0.153:80/device"; S_ "http://192.168.0.153:80/fsapi";
         S_ "http://192.168.0.153"].
Proof.
  split; [vm_compute; reflexivity|].
  repeat constructor; simpl; intros H;
    repeat (destruct H as [H|H]; [discriminate H|]); exact H.
Qed.

(** C9: when the input, trimmed and with its scheme normalised, ends in
    /device or /fsapi (optionally followed by a slash), that URL is the only
    candidate; in particular "10.0.0.5:8080/fsapi" yields exactly
    http://10.0.0.5:8080/fsapi. *)
Theorem normalize_candidates_explicit_root :
  (forall user_input pre sfx,
     py_strip user_input <> [] ->
     with_scheme (py_strip user_input) = pre ++ sfx ->
     In sfx resource_suffixes ->
     normalize_candidates user_input = Some [with_scheme (py_strip user_input)]) /\
  normalize_candidates (S_ "10.0.0.5:8080/fsapi") = Some [S_ "http://10.0.0.5:8080/fsapi"].
Proof.
  split; [|vm_compute; reflexivity].
  intros u pre sfx Hne Hs Hin. unfold normalize_candidates.
  destruct (py_strip u) as [|c t] eqn:Hu; [congruence|].
  rewrite Hs, (re_search_root_suffix pre sfx (resource_suffix_matches sfx Hin)).
  reflexivity.
Qed.

(** C10: when the trimmed input starts with https://, no http:// is
    prepended and every candidate returned starts with https://. *)
Theorem normalize_candidates_keeps_https (user_input : str) (cands : list str) :
  startswith (py_strip user_input) (S_ "https://") = true ->
  normalize_candidates user_input = Some cands ->
  with_scheme (py_strip user_input) = py_strip user_input /\
  Forall (fun c => startswith c (S_ "https://") = true) cands.
Proof.
  intros Hh Hn. split; [exact (with_scheme_https _ Hh)|].
  destruct (startswith_inv _ _ Hh) as [r Hr].
  unfold normalize_candidates in Hn. rewrite Hr in Hn.
  rewrite (with_scheme_https _ (startswith_app _ r)) in Hn.
  assert (Hc : exists c t, S_ "https://" ++ r = c :: t) by (do 2 eexists; reflexivity).
  destruct Hc as (c & t & Hc). rewrite Hc in Hn.
  cbv beta iota zeta in Hn. rewrite <- Hc in Hn.
  destruct (re_search_root (S_ "https://" ++ r)).
  - injection Hn as <-. constructor; [exact (startswith_app (S_ "https://") r)|constructor].
  - unfold rstrip_slash in Hn. rewrite rstrip_by_app in Hn.
    destruct (rstrip_by _ r) as [|y r'] eqn:Hr'.
    + vm_compute in Hn. discriminate Hn.
    + destruct (split1_after _ _) as [host_only|]; [|discriminate Hn].
      injection Hn as <-.
      apply Forall_forall. intros x Hx. apply dedupe_aux_incl in Hx.
      destruct (contains_char _ host_only);
        repeat (destruct Hx as [<-|Hx];
                [rewrite <- ?app_assoc; exact (startswith_app (S_ "https://") _)|]);
        destruct Hx.
Qed.

(** ** Lemmas on [connect] *)

Section ConnectLemmas.

Context {Handle Cause Value Preset : Type}.
Variable T : @transport Handle Cause Value Preset.

Lemma create_and_probe_attempted (base : str) (p t : Z) :
  attempted (snd (create_and_probe T base p t)) = [base].
Proof.
  unfold create_and_probe.
  destruct (t_create T base p t); [destruct (t_call T a GetFriendlyName)|]; reflexivity.
Qed.

Lemma create_and_probe_ok (base : str) (p t : Z) (a : Handle) :
  fst (create_and_probe T base p t) = Ok a ->
  t_create T base p t = Ok a /\ exists v, t_call T a GetFriendlyName = Ok v.
Proof.
  unfold create_and_probe.
  destruct (t_create T base p t) as [a'|e]; [|discriminate].
  destruct (t_call T a' GetFriendlyName) as [v|e] eqn:Hc; simpl; [|discriminate].
  intros [= <-]. split; [reflexivity|exists v; exact Hc].
Qed.

(** Failed candidates leave the loop's service untouched and are all
    tried; the last error is the one of the last candidate. *)
Lemma connect_loop_all_fail (cands : list str) (s : service) (le : option Cause) :
  Forall (attempt_fails T (pin s) (timeout s)) cands ->
  let '(s', le', ev) := connect_loop T cands s le in
  s' = s /\ attempted ev = cands /\
  (cands = [] -> le' = le) /\
  (forall pre last, cands = pre ++ [last] ->
     exists e, le' = Some e /\ fst (create_and_probe T last (pin s) (timeout s)) = Err e).
Proof.
  revert le; induction cands as [|c cands IH]; intros le Hall.
  - simpl. repeat split; [intros pre last H; destruct pre; discriminate H].
  - inversion Hall as [|? ? [e He] Hrest]; subst.
    simpl. pose proof (create_and_probe_attempted c (pin s) (timeout s)) as Ha.
    destruct (create_and_probe T c (pin s) (timeout s)) as [r ev] eqn:Hcp.
    simpl in He, Ha; subst r.
    specialize (IH (Some e) Hrest).
    destruct (connect_loop T cands s (Some e)) as [[s' le'] ev'].
    destruct IH as (-> & Hat & Hnil & Hlast).
    split; [reflexivity|]. split.
    + unfold attempted in *. rewrite flat_map_app, Ha, Hat. reflexivity.
    + split; [discriminate|].
      intros pre last Heq. destruct pre as [|x pre].
      * injection Heq as <- ->. exists e. rewrite (Hnil eq_refl), Hcp. split; reflexivity.
      * injection Heq as <- Heq. exact (Hlast pre last Heq).
Qed.

(** The first candidate whose creation and probe succeed ends the loop. *)
Lemma connect_loop_first_success (pre post : list str) (ck : str) (a : Handle)
  (s : service) (le : option Cause) :
  Forall (attempt_fails T (pin s) (timeout s)) pre ->
  fst (create_and_probe T ck (pin s) (timeout s)) = Ok a ->
  let '(s', _, ev) := connect_loop T (pre ++ ck :: post) s le in
  s' = {| api := Some a; connected := true; url_used := Some ck;
          pin := pin s; timeout := timeout s |} /\
  attempted ev = pre ++ [ck].
Proof.
  intros Hpre Hk. revert le; induction Hpre as [|c pre [e He] Hpre IH]; intros le.
  - simpl. pose proof (create_and_probe_attempted ck (pin s) (timeout s)) as Ha.
    destruct (create_and_probe T ck (pin s) (timeout s)) as [r ev].
    simpl in Hk, Ha; subst r. split; [reflexivity|exact Ha].
  - simpl. pose proof (create_and_probe_attempted c (pin s) (timeout s)) as Ha.
    destruct (create_and_probe T c (pin s) (timeout s)) as [r ev].
    simpl in He, Ha; subst r.
    specialize (IH (Some e)).
    destruct (connect_loop T (pre ++ ck :: post) s (Some e)) as [[s' le'] ev'].
    destruct IH as [-> Hat]. split; [reflexivity|].
    unfold attempted in *. rewrite flat_map_app, Ha, Hat. reflexivity.
Qed.

(** Whatever the candidates, the loop returns its input service or a
    service holding a handle whose creation and probe succeeded. *)
Lemma connect_loop_cases (cands : list str) (s : service) (le : option Cause) :
  let '(s', _, _) := connect_loop T cands s le in
  s' = s \/
  exists a base,
    fst (create_and_probe T base (pin s) (timeout s)) = Ok a /\
    s' = {| api := Some a; connected := true; url_used := Some base;
            pin := pin s; timeout := timeout s |}.
Proof.
  revert le; induction cands as [|c cands IH]; intros le; simpl; [left; reflexivity|].
  destruct (create_and_probe T c (pin s) (timeout s)) as [r ev] eqn:Hcp.
  destruct r as [a|e].
  - right. exists a, c. rewrite Hcp. split; reflexivity.
  - specialize (IH (Some e)).
    destruct (connect_loop T cands s (Some e)) as [[s' le'] ev']. exact IH.
Qed.

End ConnectLemmas.

Section SessionLemmas.

Context {Handle Cause Value Preset : Type}.
Context (py_bool : Value -> bool) (py_int : Value -> option Z) (afsapi_loaded : bool).
Variable T : @transport Handle Cause Value Preset.

Lemma session_inv_cleared (p t : Z) :
  session_inv T {| api := None; connected := false; url_used := None;
                   pin := p; timeout := t |}.
Proof.
  split; split; simpl.
  - discriminate.
  - intros (a & u & v & H & _). discriminate H.
  - intros H. exfalso. apply H. reflexivity.
  - discriminate.
Qed.

Lemma session_inv_probed (a : Handle) (base : str) (p t : Z) :
  fst (create_and_probe T base p t) = Ok a ->
  session_inv T {| api := Some a; connected := true; url_used := Some base;
                   pin := p; timeout := t |}.
Proof.
  intros H. destruct (create_and_probe_ok T base p t a H) as [Hc [v Hv]].
  split; split; simpl; intros _.
  - exists a, base, v. repeat split; assumption.
  - reflexivity.
  - reflexivity.
  - discriminate.
Qed.

(** Only [connect] changes the service. *)
Lemma step_other_keeps_state (s : @service Handle) (o : op) :
  (forall u p t, o <> OpConnect u p t) ->
  let '(_, s', _) := step py_bool py_int afsapi_loaded T s o in s' = s.
Proof.
  intros Hn. destruct o as [u p t| |c]; simpl.
  - exfalso. exact (Hn u p t eq_refl).
  - reflexivity.
  - destruct (guarded py_bool py_int T s c). reflexivity.
Qed.

Lemma step_preserves_session_inv (s : @service Handle) (o : op) :
  session_inv T s ->
  let '(_, s', _) := step py_bool py_int afsapi_loaded T s o in session_inv T s'.
Proof.
  intros Hs. destruct o as [u p t| |c].
  - unfold step, connect. destruct afsapi_loaded; simpl; [|exact Hs].
    destruct (normalize_candidates u) as [cands|]; [|apply session_inv_cleared].
    pose proof (connect_loop_cases T cands
      {| api := None; connected := false; url_used := None; pin := p; timeout := t |} None)
      as Hc.
    destruct (connect_loop T cands _ None) as [[s1 le] ev].
    assert (Hs1 : session_inv T s1).
    { destruct Hc as [->|(a & base & Hok & ->)];
        [apply session_inv_cleared|exact (session_inv_probed a base p t Hok)]. }
    destruct (connected s1); exact Hs1.
  - exact Hs.
  - simpl. destruct (guarded py_bool py_int T s c). exact Hs.
Qed.

End SessionLemmas.

(** ** Claims on [connect] *)

(** C1: if candidate [ck] is the first of the candidate list whose
    [AFSAPI.create] and probe both succeed, [connect] returns normally,
    [url_used] is [ck], the service is connected on the handle created
    there, and no candidate after [ck] is passed to [AFSAPI.create]. *)
Theorem connect_first_success {Handle Cause Value Preset : Type}
  (T : @transport Handle Cause Value Preset) (s : @service Handle)
  (user_url : str) (p t : Z) (pre post : list str) (ck : str) (a : Handle) :
  normalize_candidates user_url = Some (pre ++ ck :: post) ->
  Forall (attempt_fails T p t) pre ->
  fst (create_and_probe T ck p t) = Ok a ->
  let '(r, s', ev) := connect true T s user_url p t in
  r = Ok tt /\ url_used s' = Some ck /\ connected s' = true /\
  is_connected s' = true /\ api s' = Some a /\ attempted ev = pre ++ [ck].
Proof.
  intros Hn Hpre Hk. unfold connect. simpl negb. cbv iota. rewrite Hn.
  pose proof (connect_loop_first_success T pre post ck a
    {| api := None; connected := false; url_used := None; pin := p; timeout := t |}
    None Hpre Hk) as H.
  destruct (connect_loop T (pre ++ ck :: post) _ None) as [[s' le] ev].
  destruct H as [-> Hat]. simpl.
  repeat split; [exact Hat].
Qed.

Lemma connect_first_success_witness :
  normalize_candidates (S_ "192.168.0.153") =
    Some ([S_ "http://192.168.0.153:80/device"] ++
          S_ "http://192.168.0.153:80/fsapi" :: [S_ "http://192.168.0.153"]) /\
  Forall (attempt_fails demo_T 1234 2) [S_ "http://192.168.0.153:80/device"] /\
  fst (create_and_probe demo_T (S_ "http://192.168.0.153:80/fsapi") 1234 2) = Ok 7 /\
  (let '(r, s', ev) := connect true demo_T init (S_ "192.168.0.153") 1234 2 in
   r = Ok tt /\ url_used s' = Some (S_ "http://192.168.0.153:80/fsapi") /\
   connected s' = true /\ is_connected s' = true /\ api s' = Some 7 /\
   attempted ev = [S_ "http://192.168.0.153:80/device"] ++
                  [S_ "http://192.168.0.153:80/fsapi"]).
Proof.
  assert (H1 : normalize_candidates (S_ "192.168.0.153") =
    Some ([S_ "http://192.168.0.153:80/device"] ++
          S_ "http://192.168.0.153:80/fsapi" :: [S_ "http://192.168.0.153"]))
    by (vm_compute; reflexivity).
  assert (H2 : Forall (attempt_fails demo_T 1234 2) [S_ "http://192.168.0.153:80/device"])
    by (constructor; [exists "connection refused"%string; vm_compute; reflexivity|constructor]).
  assert (H3 : fst (create_and_probe demo_T (S_ "http://192.168.0.153:80/fsapi") 1234 2) = Ok 7)
    by (vm_compute; reflexivity).
  split; [exact H1|split; [exact H2|split; [exact H3|]]].
  exact (connect_first_success demo_T init (S_ "192.168.0.153") 1234 2 _ _ _ 7 H1 H2 H3).
Defined.

(** C2: if every candidate fails ([AFSAPI.create] or the probe raises),
    each failure is caught and the next candidate tried, so every candidate
    is attempted; [connect] then raises the connection error carrying the
    full candidate list and the error of the last attempt (none when there
    were no candidates), and the service is not connected. *)
Theorem connect_all_fail {Handle Cause Value Preset : Type}
  (T : @transport Handle Cause Value Preset) (s : @service Handle)
  (user_url : str) (p t : Z) (cands : list str) :
  normalize_candidates user_url = Some cands ->
  Forall (attempt_fails T p t) cands ->
  let '(r, s', ev) := connect true T s user_url p t in
  (exists le, r = Err (ConnectFailed cands le) /\
     (cands = [] -> le = None) /\
     (forall pre last, cands = pre ++ [last] ->
        exists e, le = Some e /\ fst (create_and_probe T last p t) = Err e)) /\
  attempted ev = cands /\ is_connected s' = false.
Proof.
  intros Hn Hall. unfold connect. simpl negb. cbv iota. rewrite Hn.
  pose proof (connect_loop_all_fail T cands
    {| api := None; connected := false; url_used := None; pin := p; timeout := t |}
    None Hall) as H.
  destruct (connect_loop T cands _ None) as [[s' le] ev].
  destruct H as (-> & Hat & Hnil & Hlast). simpl.
  split; [|split; [exact Hat|reflexivity]].
  exists le. split; [reflexivity|split; assumption].
Qed.

Lemma connect_all_fail_witness :
  normalize_candidates (S_ "10.0.0.9") =
    Some [S_ "http://10.0.0.9:80/device"; S_ "http://10.0.0.9:80/fsapi";
          S_ "http://10.0.0.9"] /\
  Forall (attempt_fails demo_T 1234 2)
    [S_ "http://10.0.0.9:80/device"; S_ "http://10.0.0.9:80/fsapi"; S_ "http://10.0.0.9"] /\
  (let '(r, s', ev) := connect true demo_T init (S_ "10.0.0.9") 1234 2 in
   (exists le, r = Err (ConnectFailed [S_ "http://10.0.0.9:80/device";
                   S_ "http://10.0.0.9:80/fsapi"; S_ "http://10.0.0.9"] le) /\
     ([S_ "http://10.0.0.9:80/device"; S_ "http://10.0.0.9:80/fsapi";
       S_ "http://10.0.0.9"] = [] -> le = None) /\
     (forall pre last, [S_ "http://10.0.0.9:80/device"; S_ "http://10.0.0.9:80/fsapi";
                        S_ "http://10.0.0.9"] = pre ++ [last] ->
        exists e, le = Some e /\ fst (create_and_probe demo_T last 1234 2) = Err e)) /\
   attempted ev = [S_ "http://10.0.0.9:80/device"; S_ "http://10.0.0.9:80/fsapi";
                   S_ "http://10.0.0.9"] /\
   is_connected s' = false).
Proof.
  assert (H1 : normalize_candidates (S_ "10.0.0.9") =
    Some [S_ "http://10.0.0.9:80/device"; S_ "http://10.0.0.9:80/fsapi";
          S_ "http://10.0.0.9"]) by (vm_compute; reflexivity).
  assert (H2 : Forall (attempt_fails demo_T 1234 2)
    [S_ "http://10.0.0.9:80/device"; S_ "http://10.0.0.9:80/fsapi"; S_ "http://10.0.0.9"])
    by (repeat constructor; exists "connection refused"%string; vm_compute; reflexivity).
  split; [exact H1|split; [exact H2|]].
  exact (connect_all_fail demo_T init (S_ "10.0.0.9") 1234 2 _ H1 H2).
Defined.

(** ** Claims on the guarded wrappers *)

(** C3: each of the nine guarded wrappers ([get_friendly_name],
    [get_power], [set_power], [get_volume], [set_volume], [get_modes],
    [set_mode], [get_presets], [recall_preset]) invoked while
    [is_connected()] is false raises the not-connected error, makes no
    transport call and leaves the service unchanged. *)
Theorem guarded_requires_connection {Handle Cause Value Preset : Type}
  (py_bool : Value -> bool) (py_int : Value -> option Z) (afsapi_loaded : bool)
  (T : @transport Handle Cause Value Preset) (s : @service Handle) (c : @cmd Preset) :
  is_connected s = false ->
  step py_bool py_int afsapi_loaded T s (OpCmd c) = (Err NotConnected, s, []).
Proof.
  intros H. unfold step, guarded, require. rewrite H. reflexivity.
Qed.

Lemma guarded_requires_connection_witness :
  is_connected (@init nat) = false /\
  step demo_bool demo_int true demo_T init (OpCmd (SetVolume 10)) =
    (Err NotConnected, init, []).
Proof.
  split; [reflexivity|].
  apply guarded_requires_connection. reflexivity.
Defined.

(** C6: a guarded wrapper invoked while connected whose transport call
    raises [e] raises [e] itself, after exactly that one transport call,
    and the service is unchanged: still connected, with the same handle and
    [url_used]. *)
Theorem guarded_transport_error {Handle Cause Value Preset : Type}
  (py_bool : Value -> bool) (py_int : Value -> option Z) (afsapi_loaded : bool)
  (T : @transport Handle Cause Value Preset) (s : @service Handle) (c : @cmd Preset)
  (a : Handle) (e : Cause) :
  connected s = true -> api s = Some a -> t_call T a c = Err e ->
  step py_bool py_int afsapi_loaded T s (OpCmd c) = (Err (Raised e), s, [ECall c]).
Proof.
  intros Hc Ha He. unfold step, guarded, require, is_connected.
  rewrite Hc, Ha. simpl. rewrite He. reflexivity.
Qed.

Lemma guarded_transport_error_witness :
  connected demo_connected = true /\ api demo_connected = Some 7 /\
  t_call demo_T 7 (SetVolume 10) = Err "HTTP 403"%string /\
  step demo_bool demo_int true demo_T demo_connected (OpCmd (SetVolume 10)) =
    (Err (Raised "HTTP 403"%string), demo_connected, [ECall (SetVolume 10)]).
Proof.
  split; [reflexivity|split; [reflexivity|split; [reflexivity|]]].
  apply (guarded_transport_error demo_bool demo_int true demo_T demo_connected
           (SetVolume 10) 7 "HTTP 403"%string); reflexivity.
Defined.

(** ** Concurrent callers *)

(** C7 (refuted): the operations are not serialized. Caller thread 0
    connects and then calls [get_power]; caller thread 1 calls
    [get_volume]. Once thread 0 is connected, both wrappers pass
    [_require()] and submit their coroutines, and the loop starts both:
    two device calls are in flight at once on the same session's handle.
    A [connect] is no serialized operation either: while thread 0's
    [get_power] is in flight, a [connect] of thread 1 resets the session
    and goes on trying candidates; and when that reset falls between
    thread 0's [_require()] and the start of its coroutine, the coroutine
    finds [self._api] to be [None] and [get_power] raises
    [AttributeError]. *)
Theorem concurrent_calls_not_serialized :
  let run := run_sched demo_bool demo_int true demo_T in
  let w0 := @start_world nat string nat nat init
              [[OpConnect (S_ "192.168.0.153") 1234 2; OpCmd GetPower]; [OpCmd GetVolume]] in
  let w1 := @start_world nat string nat nat init
              [[OpConnect (S_ "192.168.0.153") 1234 2; OpCmd GetPower];
               [OpConnect (S_ "192.168.0.153") 1234 2]] in
  let connected0 := [Caller 0; Caller 0; LoopStart; LoopDone 0; Caller 0; LoopStart;
                     LoopDone 0] in
  ~ (forall sch w, run w0 sch = Some w -> List.length (in_flight w) <= 1) /\
  (exists w, run w0 (connected0 ++ [Caller 0; Caller 1; LoopStart; LoopStart]) = Some w /\
     map th_pc (w_threads w) = [TInFlight 7 GetPower; TInFlight 7 GetVolume]) /\
  (exists w, run w1 (connected0 ++ [Caller 0; LoopStart; Caller 1; Caller 1]) = Some w /\
     in_flight w = [0] /\ connecting w = [1] /\ api (w_svc w) = None) /\
  (exists w, run w1 (connected0 ++ [Caller 0; Caller 1; LoopStart]) = Some w /\
     map th_out (w_threads w) = [[OConnect (Ok tt); OAttrErr]; []]).
Proof.
  cbv zeta.
  split; [|split; [|split]].
  - intros H.
    assert (Hr : exists w,
      run_sched demo_bool demo_int true demo_T
        (@start_world nat string nat nat init
           [[OpConnect (S_ "192.168.0.153") 1234 2; OpCmd GetPower]; [OpCmd GetVolume]])
        [Caller 0; Caller 0; LoopStart; LoopDone 0; Caller 0; LoopStart; LoopDone 0;
         Caller 0; Caller 1; LoopStart; LoopStart] = Some w /\
      List.length (in_flight w) = 2).
    { eexists. split; [vm_compute; reflexivity|vm_compute; reflexivity]. }
    destruct Hr as (w & Hr & Hl). specialize (H _ _ Hr). lia.
  - eexists. split; [vm_compute; reflexivity|vm_compute; reflexivity].
  - eexists. split; [vm_compute; reflexivity|vm_compute; repeat split].
  - eexists. split; [vm_compute; reflexivity|vm_compute; reflexivity].
Qed.

(** ** The session invariant *)

(** C4: after any sequence of public operations ([connect],
    [is_connected], the guarded wrappers) from a fresh [RadioService], the
    service is connected iff it holds a handle that a successful
    [AFSAPI.create] and [get_friendly_name] probe at [url_used] returned,
    and [url_used] is set iff it is connected. *)
Theorem session_invariant {Handle Cause Value Preset : Type}
  (py_bool : Value -> bool) (py_int : Value -> option Z) (afsapi_loaded : bool)
  (T : @transport Handle Cause Value Preset) (ops : list op) :
  session_inv T (run py_bool py_int afsapi_loaded T init ops).
Proof.
  assert (Hinit : session_inv T (@init Handle)) by apply session_inv_cleared.
  revert Hinit. generalize (@init Handle) as s.
  induction ops as [|o ops IH]; intros s Hs; simpl; [exact Hs|].
  pose proof (step_preserves_session_inv py_bool py_int afsapi_loaded T s o Hs) as Hst.
  destruct (step py_bool py_int afsapi_loaded T s o) as [[r s'] ev].
  exact (IH s' Hst).
Qed.

(** ** Clearing the session *)

(** C5 (as stated, refuted): [RadioService] has no [disconnect()]: no
    public operation returns normally and leaves the service disconnected
    from every state and with every transport. *)
Lemma no_disconnect_operation :
  ~ exists o : @op nat,
      forall (T : @transport nat string nat nat) (s : @service nat),
        let '(r, s', _) := step demo_bool demo_int true T s o in
        (exists v, r = Ok v) /\ is_connected s' = false.
Proof.
  intros [o Ho]. destruct o as [u p t| |c].
  - specialize (Ho refusing_T init). unfold step, connect in Ho. simpl negb in Ho.
    cbv iota in Ho.
    destruct (normalize_candidates u) as [cands|].
    + assert (Hall : Forall (attempt_fails refusing_T p t) cands).
      { apply Forall_forall. intros x _. exists "connection refused"%string. reflexivity. }
      pose proof (connect_loop_all_fail refusing_T cands
        {| api := None; connected := false; url_used := None; pin := p; timeout := t |}
        None Hall) as H.
      destruct (connect_loop refusing_T cands _ None) as [[s' le] ev].
      destruct H as (-> & _). simpl in Ho.
      destruct Ho as [[v Hv] _]. discriminate Hv.
    + destruct Ho as [[v Hv] _]. discriminate Hv.
  - specialize (Ho refusing_T demo_connected). simpl in Ho.
    destruct Ho as [_ H]. discriminate H.
  - specialize (Ho refusing_T init). simpl in Ho.
    destruct Ho as [[v Hv] _]. discriminate Hv.
Qed.

(** C5 (amended): the session is changed only by [connect], which resets
    it before trying candidates: for every address, [connect] with [pin]
    [p] and [timeout] [t] behaves, in its result, final state and
    transport calls, exactly as from the cleared session with [p] and [t],
    whatever session it starts from, and when it raises it leaves that
    cleared session. [connect] with an empty or blank address clears the
    session from any state: it raises the connection error with no
    candidates and no last error and calls no transport; the cleared
    service is disconnected, every guarded wrapper on it raises the
    not-connected error without a call, and repeating that [connect]
    changes nothing. *)
Theorem connect_blank_clears_session {Handle Cause Value Preset : Type}
  (py_bool : Value -> bool) (py_int : Value -> option Z)
  (T : @transport Handle Cause Value Preset) (s : @service Handle)
  (user_url : str) (p t : Z) :
  py_strip user_url = [] ->
  let s0 : @service Handle :=
    {| api := None; connected := false; url_used := None; pin := p; timeout := t |} in
  (forall (s1 : @service Handle) (o : op),
     (forall u' p' t', o <> OpConnect u' p' t') ->
     let '(_, s2, _) := step py_bool py_int true T s1 o in s2 = s1) /\
  (forall (u : str) (s1 : @service Handle),
     connect true T s1 u p t = connect true T s0 u p t) /\
  (forall (u : str) e s' ev, connect true T s u p t = (Err e, s', ev) -> s' = s0) /\
  connect true T s user_url p t = (Err (ConnectFailed [] None), s0, []) /\
  is_connected s0 = false /\
  (forall c, step py_bool py_int true T s0 (OpCmd c) = (Err NotConnected, s0, [])) /\
  connect true T s0 user_url p t = (Err (ConnectFailed [] None), s0, []).
Proof.
  intros Hb. cbv zeta.
  assert (Hn : normalize_candidates user_url = Some []).
  { unfold normalize_candidates. rewrite Hb. reflexivity. }
  split; [intros s1 o; apply step_other_keeps_state|].
  split; [intros u s1; reflexivity|].
  split.
  { intros u e s' ev. unfold connect. simpl negb. cbv iota.
    destruct (normalize_candidates u) as [cands|]; [|intros [= _ <- _]; reflexivity].
    pose proof (connect_loop_cases T cands
      {| api := None; connected := false; url_used := None; pin := p; timeout := t |} None)
      as Hc.
    destruct (connect_loop T cands _ None) as [[s1 le] ev1].
    destruct Hc as [->|(a & base & _ & ->)]; simpl;
      [intros [= _ <- _]; reflexivity|discriminate]. }
  unfold connect. simpl negb. cbv iota. rewrite Hn. simpl.
  repeat split.
Qed.

Lemma connect_blank_clears_session_witness :
  py_strip (S_ "   ") = [] /\
  connect true demo_T demo_connected (S_ "   ") 1234 2 =
    (Err (ConnectFailed [] None),
     {| api := None; connected := false; url_used := None; pin := 1234; timeout := 2 |}, []) /\
  connect true demo_T demo_connected (S_ "10.0.0.9") 1234 2 =
    connect true demo_T
      {| api := None; connected := false; url_used := None; pin := 1234; timeout := 2 |}
      (S_ "10.0.0.9") 1234 2.
Proof.
  assert (H : py_strip (S_ "   ") = []) by reflexivity.
  destruct (connect_blank_clears_session demo_bool demo_int demo_T demo_connected
              (S_ "   ") 1234 2 H) as (_ & Hind & _ & Hblank & _).
  split; [exact H|]. split; [exact Hblank|]. apply Hind.
Defined.

Lemma normalize_candidates_explicit_root_witness :
  py_strip (S_ " radio/device/ ") <> [] /\
  with_scheme (py_strip (S_ " radio/device/ ")) = S_ "http://radio" ++ S_ "/device/" /\
  In (S_ "/device/") resource_suffixes /\
  normalize_candidates (S_ " radio/device/ ") =
    Some [with_scheme (py_strip (S_ " radio/device/ "))].
Proof.
  assert (H1 : py_strip (S_ " radio/device/ ") <> []) by (vm_compute; discriminate).
  assert (H2 : with_scheme (py_strip (S_ " radio/device/ ")) =
               S_ "http://radio" ++ S_ "/device/") by (vm_compute; reflexivity).
  assert (H3 : In (S_ "/device/") resource_suffixes) by (right; left; reflexivity).
  split; [exact H1|split; [exact H2|split; [exact H3|]]].
  exact (proj1 normalize_candidates_explicit_root _ _ _ H1 H2 H3).
Defined.

Lemma normalize_candidates_keeps_https_witness :
  startswith (py_strip (S_ "https://radio:8080/")) (S_ "https://") = true /\
  normalize_candidates (S_ "https://radio:8080/") =
    Some [S_ "https://radio:8080/device"; S_ "https://radio:8080/fsapi";
          S_ "https://radio:8080"] /\
  with_scheme (py_strip (S_ "https://radio:8080/")) = py_strip (S_ "https://radio:8080/") /\
  Forall (fun c => startswith c (S_ "https://") = true)
    [S_ "https://radio:8080/device"; S_ "https://radio:8080/fsapi"; S_ "https://radio:8080"].
Proof.
  assert (H1 : startswith (py_strip (S_ "https://radio:8080/")) (S_ "https://") = true)
    by reflexivity.
  assert (H2 : normalize_candidates (S_ "https://radio:8080/") =
    Some [S_ "https://radio:8080/device"; S_ "https://radio:8080/fsapi";
          S_ "https://radio:8080"]) by (vm_compute; reflexivity).
  split; [exact H1|split; [exact H2|]].
  exact (normalize_candidates_keeps_https _ _ H1 H2).
Defined.

(** ** Further properties of the resolver *)

Lemma str_eqb_eq (a b : str) : str_eqb a b = true <-> a = b.
Proof.
  unfold str_eqb. destruct (list_eq_dec ascii_dec a b); split; congruence.
Qed.

Lemma dedupe_aux_nodup (l seen : list str) :
  NoDup (dedupe_aux seen l) /\ (forall x, In x (dedupe_aux seen l) -> ~ In x seen).
Proof.
  revert seen; induction l as [|c l IH]; intros seen; simpl.
  - split; [constructor|intros x []].
  - destruct (existsb (str_eqb c) seen) eqn:He; [exact (IH seen)|].
    destruct (IH (c :: seen)) as [Hnd Hout]. split.
    + constructor; [|exact Hnd]. intros Hin. apply (Hout c Hin). left. reflexivity.
    + intros x [<-|Hx] Hs.
      * assert (Hx : existsb (str_eqb c) seen = true).
        { apply existsb_exists. exists c. split; [exact Hs|apply str_eqb_eq; reflexivity]. }
        congruence.
      * apply (Hout x Hx). right. exact Hs.
Qed.

Lemma dedupe_aux_length (l seen : list str) : List.length (dedupe_aux seen l) <= List.length l.
Proof.
  revert seen; induction l as [|c l IH]; intros seen; simpl; [lia|].
  destruct (existsb (str_eqb c) seen); simpl; [specialize (IH seen)|specialize (IH (c :: seen))]; lia.
Qed.

(** X1: the resolver never returns a duplicate and returns at most three
    candidates. *)
Theorem normalize_candidates_nodup (user_input : str) (cands : list str) :
  normalize_candidates user_input = Some cands ->
  NoDup cands /\ List.length cands <= 3.
Proof.
  unfold normalize_candidates. intros Hn.
  destruct (py_strip user_input) as [|c t].
  - injection Hn as <-. split; [constructor|simpl; lia].
  - cbv zeta in Hn. destruct (re_search_root (with_scheme (c :: t))).
    + injection Hn as <-. split; [repeat constructor; intros []|simpl; lia].
    + destruct (split1_after _ _) as [host_only|]; [|discriminate].
      injection Hn as <-. split.
      * apply dedupe_aux_nodup.
      * eapply Nat.le_trans; [apply dedupe_aux_length|simpl; lia].
Qed.

Lemma normalize_candidates_witness_nodup :
  normalize_candidates (S_ "radio.local") =
    Some [S_ "http://radio.local:80/device"; S_ "http://radio.local:80/fsapi";
          S_ "http://radio.local"] /\
  NoDup [S_ "http://radio.local:80/device"; S_ "http://radio.local:80/fsapi";
         S_ "http://radio.local"] /\
  List.length [S_ "http://radio.local:80/device"; S_ "http://radio.local:80/fsapi";
               S_ "http://radio.local"] <= 3.
Proof.
  assert (H : normalize_candidates (S_ "radio.local") =
    Some [S_ "http://radio.local:80/device"; S_ "http://radio.local:80/fsapi";
          S_ "http://radio.local"]) by (vm_compute; reflexivity).
  split; [exact H|]. exact (normalize_candidates_nodup _ _ H).
Defined.

Lemma rstrip_by_nil (p : ascii -> bool) (r : str) :
  rstrip_by p r = [] <-> Forall (fun c => p c = true) r.
Proof.
  induction r as [|c r IH]; simpl; [split; [constructor|reflexivity]|].
  split.
  - destruct (rstrip_by p r) as [|y r'] eqn:Hr; [|discriminate].
    destruct (p c) eqn:Hc; [|discriminate]. intros _.
    constructor; [exact Hc|apply IH; reflexivity].
  - intros Hf. inversion Hf as [|? ? Hc Hrest]; subst.
    rewrite (proj2 IH Hrest), Hc. reflexivity.
Qed.

Lemma with_scheme_shape (s : str) :
  exists pfx r, (pfx = S_ "http://" \/ pfx = S_ "https://") /\ with_scheme s = pfx ++ r.
Proof.
  unfold with_scheme.
  destruct (startswith s (S_ "http://")) eqn:H1.
  - destruct (startswith_inv _ _ H1) as [r ->]. exists (S_ "http://"), r.
    split; [left; reflexivity|reflexivity].
  - destruct (startswith s (S_ "https://")) eqn:H2; simpl.
    + destruct (startswith_inv _ _ H2) as [r ->]. exists (S_ "https://"), r.
      split; [right; reflexivity|reflexivity].
    + exists (S_ "http://"), s. split; [left; reflexivity|reflexivity].
Qed.

Lemma re_root_match_here_cases (s : str) :
  re_root_match_here s = true -> In s resource_suffixes.
Proof.
  unfold re_root_match_here. simpl existsb.
  intros H. repeat (apply orb_true_elim in H; destruct H as [H|H]);
    try (apply str_eqb_eq in H; subst s; vm_compute; tauto);
    discriminate H.
Qed.

Lemma re_search_root_has_i (s : str) : re_search_root s = true -> In "i"%char s.
Proof.
  induction s as [|c s IH]; intros H; cbn [re_search_root] in H;
    apply orb_true_elim in H; destruct H as [H|H].
  - apply re_root_match_here_cases in H. exfalso.
    repeat (destruct H as [H|H]; [discriminate H|]); exact H.
  - discriminate H.
  - apply re_root_match_here_cases in H.
    repeat (destruct H as [H|H]; [rewrite <- H; simpl; tauto|]); destruct H.
  - right. exact (IH H).
Qed.

Lemma split1_after_scheme (pfx r : str) :
  (pfx = S_ "http://" \/ pfx = S_ "https://") ->
  r <> [] -> split1_after (S_ "//") (pfx ++ r) <> None.
Proof.
  intros [-> | ->] Hr; destruct r as [|y r]; try congruence; simpl; discriminate.
Qed.

(** All candidates start with the scheme the normalised input starts
    with. *)
Lemma normalize_candidates_scheme (user_input pfx r : str) (cands : list str) :
  (pfx = S_ "http://" \/ pfx = S_ "https://") ->
  with_scheme (py_strip user_input) = pfx ++ r ->
  normalize_candidates user_input = Some cands ->
  py_strip user_input <> [] ->
  Forall (fun c => startswith c pfx = true) cands.
Proof.
  intros Hp Hs Hn Hne. unfold normalize_candidates in Hn.
  destruct (py_strip user_input) as [|c t]; [congruence|].
  cbv zeta in Hn. rewrite Hs in Hn.
  destruct (re_search_root (pfx ++ r)).
  - injection Hn as <-. constructor; [apply startswith_app|constructor].
  - unfold rstrip_slash in Hn. rewrite rstrip_by_app in Hn.
    destruct (rstrip_by _ r) as [|y r'] eqn:Hr'.
    + destruct Hp as [-> | ->]; vm_compute in Hn; discriminate Hn.
    + destruct (split1_after _ _) as [host_only|]; [|discriminate Hn].
      injection Hn as <-.
      apply Forall_forall. intros x Hx. apply dedupe_aux_incl in Hx.
      destruct (contains_char _ host_only);
        repeat (destruct Hx as [<-|Hx]; [rewrite <- ?app_assoc; apply startswith_app|]);
        destruct Hx.
Qed.

(** X2: for a non-blank input without an explicit http:// or https://
    scheme, every candidate starts with http://. *)
Theorem normalize_candidates_default_scheme (user_input : str) (cands : list str) :
  py_strip user_input <> [] ->
  startswith (py_strip user_input) (S_ "http://") = false ->
  startswith (py_strip user_input) (S_ "https://") = false ->
  normalize_candidates user_input = Some cands ->
  Forall (fun c => startswith c (S_ "http://") = true) cands.
Proof.
  intros Hne H1 H2 Hn.
  apply (normalize_candidates_scheme user_input (S_ "http://") (py_strip user_input));
    [left; reflexivity| |exact Hn|exact Hne].
  unfold with_scheme. rewrite H1, H2. reflexivity.
Qed.

Lemma normalize_candidates_default_scheme_witness :
  py_strip (S_ " radio:8080 ") <> [] /\
  startswith (py_strip (S_ " radio:8080 ")) (S_ "http://") = false /\
  startswith (py_strip (S_ " radio:8080 ")) (S_ "https://") = false /\
  normalize_candidates (S_ " radio:8080 ") =
    Some [S_ "http://radio:8080/device"; S_ "http://radio:8080/fsapi";
          S_ "http://radio:8080"] /\
  Forall (fun c => startswith c (S_ "http://") = true)
    [S_ "http://radio:8080/device"; S_ "http://radio:8080/fsapi"; S_ "http://radio:8080"].
Proof.
  assert (H0 : py_strip (S_ " radio:8080 ") <> []) by (vm_compute; discriminate).
  assert (H1 : startswith (py_strip (S_ " radio:8080 ")) (S_ "http://") = false)
    by reflexivity.
  assert (H2 : startswith (py_strip (S_ " radio:8080 ")) (S_ "https://") = false)
    by reflexivity.
  assert (H3 : normalize_candidates (S_ " radio:8080 ") =
    Some [S_ "http://radio:8080/device"; S_ "http://radio:8080/fsapi";
          S_ "http://radio:8080"]) by (vm_compute; reflexivity).
  do 3 (split; [assumption|]). split; [exact H3|].
  exact (normalize_candidates_default_scheme _ _ H0 H1 H2 H3).
Defined.

(** The resolver raises exactly on a scheme followed only by slashes. *)
Lemma normalize_candidates_none_iff (user_input : str) :
  normalize_candidates user_input = None <->
  py_strip user_input <> [] /\
  exists pfx r, (pfx = S_ "http://" \/ pfx = S_ "https://") /\
    with_scheme (py_strip user_input) = pfx ++ r /\
    Forall (fun c => c = "/"%char) r.
Proof.
  unfold normalize_candidates. split.
  - destruct (py_strip user_input) as [|c t] eqn:Hs; [discriminate|].
    intros Hn. split; [discriminate|].
    destruct (with_scheme_shape (c :: t)) as (pfx & r & Hp & Hw).
    exists pfx, r. split; [exact Hp|split; [exact Hw|]].
    cbv zeta in Hn. rewrite Hw in Hn.
    destruct (re_search_root (pfx ++ r)); [discriminate|].
    unfold rstrip_slash in Hn. rewrite rstrip_by_app in Hn.
    destruct (rstrip_by _ r) as [|y r'] eqn:Hr'.
    + apply rstrip_by_nil in Hr'. eapply Forall_impl; [|exact Hr'].
      intros a Ha. apply Ascii.eqb_eq in Ha. exact Ha.
    + exfalso. apply (split1_after_scheme pfx (y :: r') Hp); [discriminate|].
      destruct (split1_after _ _); [discriminate|reflexivity].
  - intros (Hne & pfx & r & Hp & Hw & Hsl).
    destruct (py_strip user_input) as [|c t]; [congruence|].
    cbv zeta. rewrite Hw.
    assert (Hre : re_search_root (pfx ++ r) = false).
    { destruct (re_search_root (pfx ++ r)) eqn:Hre; [|reflexivity].
      apply re_search_root_has_i, in_app_or in Hre. destruct Hre as [Hi|Hi].
      - destruct Hp as [-> | ->]; simpl in Hi;
          repeat (destruct Hi as [Hi|Hi]; [discriminate Hi|]); destruct Hi.
      - rewrite Forall_forall in Hsl. discriminate (Hsl _ Hi). }
    rewrite Hre. unfold rstrip_slash. rewrite rstrip_by_app.
    assert (Hr : rstrip_by (fun c => Ascii.eqb c "/"%char) r = []).
    { apply rstrip_by_nil. eapply Forall_impl; [|exact Hsl].
      intros a ->. reflexivity. }
    rewrite Hr. destruct Hp as [-> | ->]; reflexivity.
Qed.

(** X3: the resolver raises [IndexError] exactly when the input, trimmed
    and with its scheme normalised, is http:// or https:// followed only by
    slashes; [connect] on such an address raises that [IndexError] after
    clearing the session and without any transport call. *)
Theorem normalize_candidates_index_error (user_input : str) :
  (normalize_candidates user_input = None <->
   py_strip user_input <> [] /\
   exists pfx r, (pfx = S_ "http://" \/ pfx = S_ "https://") /\
     with_scheme (py_strip user_input) = pfx ++ r /\
     Forall (fun c => c = "/"%char) r) /\
  (normalize_candidates user_input = None ->
   forall (Handle Cause Value Preset : Type)
     (T : @transport Handle Cause Value Preset) (s : @service Handle) (p t : Z),
   connect true T s user_input p t =
     (Err IndexErr,
      {| api := None; connected := false; url_used := None; pin := p; timeout := t |}, [])).
Proof.
  split; [apply normalize_candidates_none_iff|].
  intros Hn Handle Cause Value Preset T s p t.
  unfold connect. simpl negb. cbv iota. rewrite Hn. reflexivity.
Qed.

Lemma normalize_candidates_index_error_witness :
  normalize_candidates (S_ " https:/// ") = None /\
  connect true demo_T demo_connected (S_ " https:/// ") 1234 2 =
    (Err IndexErr,
     {| api := None; connected := false; url_used := None; pin := 1234; timeout := 2 |}, []).
Proof.
  assert (H : normalize_candidates (S_ " https:/// ") = None) by (vm_compute; reflexivity).
  split; [exact H|].
  exact (proj2 (normalize_candidates_index_error (S_ " https:/// ")) H
           nat string nat nat demo_T demo_connected 1234%Z 2%Z).
Defined.

Lemma connect_loop_cases_in {Handle Cause Value Preset : Type}
  (T : @transport Handle Cause Value Preset) (cands : list str) (s : @service Handle)
  (le : option Cause) :
  let '(s', _, _) := connect_loop T cands s le in
  s' = s \/
  exists a base, In base cands /\
    fst (create_and_probe T base (pin s) (timeout s)) = Ok a /\
    s' = {| api := Some a; connected := true; url_used := Some base;
            pin := pin s; timeout := timeout s |}.
Proof.
  revert le; induction cands as [|c cands IH]; intros le; simpl; [left; reflexivity|].
  destruct (create_and_probe T c (pin s) (timeout s)) as [r ev] eqn:Hcp.
  destruct r as [a|e].
  - right. exists a, c. rewrite Hcp. split; [left; reflexivity|split; reflexivity].
  - specialize (IH (Some e)).
    destruct (connect_loop T cands s (Some e)) as [[s' le'] ev'].
    destruct IH as [IH|(a & base & Hin & Hok & ->)]; [left; exact IH|].
    right. exists a, base. split; [right; exact Hin|split; [exact Hok|reflexivity]].
Qed.

(** X4: a [connect] that raises (other than for the missing [afsapi]
    dependency) leaves the service cleared, with the new [pin] and
    [timeout]: the previous session is never kept. When [afsapi] is
    missing, [connect] raises before touching the service. *)
Theorem connect_failure_clears_session {Handle Cause Value Preset : Type}
  (T : @transport Handle Cause Value Preset) (s : @service Handle)
  (user_url : str) (p t : Z) :
  (forall e s' ev, connect true T s user_url p t = (Err e, s', ev) ->
     s' = {| api := None; connected := false; url_used := None; pin := p; timeout := t |}) /\
  connect false T s user_url p t = (Err DependencyMissing, s, []).
Proof.
  split; [|reflexivity].
  intros e s' ev. unfold connect. simpl negb. cbv iota.
  destruct (normalize_candidates user_url) as [cands|]; [|intros [= _ <- _]; reflexivity].
  pose proof (connect_loop_cases T cands
    {| api := None; connected := false; url_used := None; pin := p; timeout := t |} None)
    as Hc.
  destruct (connect_loop T cands _ None) as [[s1 le] ev1].
  destruct Hc as [->|(a & base & _ & ->)]; simpl; [intros [= _ <- _]; reflexivity|discriminate].
Qed.

Lemma connect_failure_clears_session_witness :
  connect true demo_T demo_connected (S_ "10.0.0.9") 1 5 =
    (Err (ConnectFailed [S_ "http://10.0.0.9:80/device"; S_ "http://10.0.0.9:80/fsapi";
                         S_ "http://10.0.0.9"] (Some "connection refused"%string)),
     {| api := None; connected := false; url_used := None; pin := 1; timeout := 5 |},
     [ECreate (S_ "http://10.0.0.9:80/device"); ECreate (S_ "http://10.0.0.9:80/fsapi");
      ECreate (S_ "http://10.0.0.9")]) /\
  ({| api := None; connected := false; url_used := None; pin := 1; timeout := 5 |}
     : @service nat) =
    {| api := None; connected := false; url_used := None; pin := 1; timeout := 5 |}.
Proof.
  assert (H : connect true demo_T demo_connected (S_ "10.0.0.9") 1 5 =
    (Err (ConnectFailed [S_ "http://10.0.0.9:80/device"; S_ "http://10.0.0.9:80/fsapi";
                         S_ "http://10.0.0.9"] (Some "connection refused"%string)),
     {| api := None; connected := false; url_used := None; pin := 1; timeout := 5 |},
     [ECreate (S_ "http://10.0.0.9:80/device"); ECreate (S_ "http://10.0.0.9:80/fsapi");
      ECreate (S_ "http://10.0.0.9")])) by (vm_compute; reflexivity).
  split; [exact H|].
  exact (proj1 (connect_failure_clears_session demo_T demo_connected (S_ "10.0.0.9") 1 5)
           _ _ _ H).
Defined.

(** X5: after a [connect] that returns normally, [url_used] is one of the
    resolver's candidates, the handle is the one [AFSAPI.create] returned
    there with the new [pin] and [timeout] and that answered the probe,
    and every guarded wrapper sends its call to that handle, exactly once,
    returning its coerced result or raising its exception. *)
Theorem connect_success_then_command {Handle Cause Value Preset : Type}
  (py_bool : Value -> bool) (py_int : Value -> option Z)
  (T : @transport Handle Cause Value Preset) (s s' : @service Handle)
  (user_url : str) (p t : Z) (ev : list (@event Preset)) :
  connect true T s user_url p t = (Ok tt, s', ev) ->
  exists a base cands,
    normalize_candidates user_url = Some cands /\ In base cands /\
    api s' = Some a /\ url_used s' = Some base /\
    t_create T base p t = Ok a /\ (exists v, t_call T a GetFriendlyName = Ok v) /\
    forall c, step py_bool py_int true T s' (OpCmd c) =
      (match t_call T a c with
       | Err e => Err (Raised e)
       | Ok v => coerce py_bool py_int c v
       end, s', [ECall c]).
Proof.
  unfold connect. simpl negb. cbv iota.
  destruct (normalize_candidates user_url) as [cands|] eqn:Hn; [|discriminate].
  pose proof (connect_loop_cases_in T cands
    {| api := None; connected := false; url_used := None; pin := p; timeout := t |} None)
    as Hc.
  destruct (connect_loop T cands _ None) as [[s1 le] ev1].
  destruct Hc as [->|(a & base & Hin & Hok & ->)]; simpl; [discriminate|].
  intros [= <- _]. simpl in Hok.
  destruct (create_and_probe_ok T base p t a Hok) as [Hcr Hpr].
  exists a, base, cands. repeat split; try assumption.
  intros c. unfold step, guarded, require. simpl.
  destruct (t_call T a c); reflexivity.
Qed.

Lemma connect_success_then_command_witness :
  connect true demo_T init (S_ "192.168.0.153") 1234 2 =
    (Ok tt, demo_connected,
     [ECreate (S_ "http://192.168.0.153:80/device");
      ECreate (S_ "http://192.168.0.153:80/fsapi"); ECall GetFriendlyName]) /\
  exists a base cands,
    normalize_candidates (S_ "192.168.0.153") = Some cands /\ In base cands /\
    api demo_connected = Some a /\ url_used demo_connected = Some base /\
    t_create demo_T base 1234 2 = Ok a /\ (exists v, t_call demo_T a GetFriendlyName = Ok v) /\
    forall c, step demo_bool demo_int true demo_T demo_connected (OpCmd c) =
      (match t_call demo_T a c with
       | Err e => Err (Raised e)
       | Ok v => coerce demo_bool demo_int c v
       end, demo_connected, [ECall c]).
Proof.
  assert (H : connect true demo_T init (S_ "192.168.0.153") 1234 2 =
    (Ok tt, demo_connected,
     [ECreate (S_ "http://192.168.0.153:80/device");
      ECreate (S_ "http://192.168.0.153:80/fsapi"); ECall GetFriendlyName]))
    by (vm_compute; reflexivity).
  split; [exact H|].
  exact (connect_success_then_command demo_bool demo_int demo_T init demo_connected
           (S_ "192.168.0.153") 1234 2 _ H).
Defined.

(** ** Properties of the GUI layer *)

Lemma preset_labels_from_nth (k : nat) (l : list pyval) (i : nat) :
  nth_error (preset_labels_from k l) i = option_map (preset_label (k + i)) (nth_error l i).
Proof.
  revert k i; induction l as [|p l IH]; intros k i; [destruct i; reflexivity|].
  destruct i as [|i]; simpl.
  - rewrite Nat.add_0_r. reflexivity.
  - rewrite IH. f_equal. f_equal. lia.
Qed.

Lemma preset_labels_from_length (k : nat) (l : list pyval) :
  List.length (preset_labels_from k l) = List.length l.
Proof. revert k; induction l; intros k; simpl; [reflexivity|rewrite IHl; reflexivity]. Qed.

Lemma label_or_fallback_truthy (x : pyval) (r : str) :
  truthy (if truthy x then x else PStr (S_ "Preset " ++ r)) = true.
Proof. destruct (truthy x) eqn:H; [exact H|reflexivity]. Qed.

(** X6: [build_buttons] makes one button per preset; the [i]-th label
    (from 1) is always truthy; a dict preset with a truthy "name" is
    labelled by it; a preset that is not a dict is labelled "Preset i". *)
Theorem preset_labels_spec (presets : list pyval) (i : nat) (p : pyval) :
  nth_error presets i = Some p ->
  List.length (preset_labels presets) = List.length presets /\
  nth_error (preset_labels presets) i = Some (preset_label (S i) p) /\
  truthy (preset_label (S i) p) = true /\
  (forall d, p = PDict d -> truthy (dict_get d (S_ "name") PNone) = true ->
     preset_label (S i) p = dict_get d (S_ "name") PNone) /\
  ((forall d, p <> PDict d) -> preset_label (S i) p = PStr (S_ "Preset " ++ str_of_nat (S i))).
Proof.
  intros Hp. split; [apply preset_labels_from_length|]. split.
  { unfold preset_labels. rewrite preset_labels_from_nth, Hp. reflexivity. }
  split; [|split].
  - unfold preset_label. apply label_or_fallback_truthy.
  - intros d -> Hn. unfold preset_label, py_or. rewrite Hn, Hn. rewrite Hn. reflexivity.
  - intros Hnd. unfold preset_label.
    destruct p; try reflexivity. exfalso. exact (Hnd d eq_refl).
Qed.

Lemma preset_labels_spec_witness :
  nth_error [PDict [(S_ "label", PStr (S_ "Jazz"))]; PInt 4] 1 = Some (PInt 4) /\
  List.length (preset_labels [PDict [(S_ "label", PStr (S_ "Jazz"))]; PInt 4]) = 2 /\
  nth_error (preset_labels [PDict [(S_ "label", PStr (S_ "Jazz"))]; PInt 4]) 1 =
    Some (preset_label 2 (PInt 4)) /\
  truthy (preset_label 2 (PInt 4)) = true /\
  (forall d, PInt 4 = PDict d -> truthy (dict_get d (S_ "name") PNone) = true ->
     preset_label 2 (PInt 4) = dict_get d (S_ "name") PNone) /\
  ((forall d, PInt 4 <> PDict d) -> preset_label 2 (PInt 4) = PStr (S_ "Preset 2")).
Proof.
  assert (H : nth_error [PDict [(S_ "label", PStr (S_ "Jazz"))]; PInt 4] 1 = Some (PInt 4))
    by reflexivity.
  split; [exact H|].
  exact (preset_labels_spec [PDict [(S_ "label", PStr (S_ "Jazz"))]; PInt 4] 1 (PInt 4) H).
Defined.

Lemma dict_lookup_set (d : config) (k k' : str) (v : pyval) :
  dict_lookup (dict_set d k v) k' = if str_eqb k' k then Some v else dict_lookup d k'.
Proof.
  induction d as [|[k0 v0] d IH]; simpl; [reflexivity|].
  destruct (str_eqb k k0) eqn:Hk; simpl.
  - apply str_eqb_eq in Hk; subst k0. destruct (str_eqb k' k); reflexivity.
  - rewrite IH. destruct (str_eqb k' k0) eqn:H0, (str_eqb k' k) eqn:H1; try reflexivity.
    apply str_eqb_eq in H0, H1. subst. rewrite (proj2 (str_eqb_eq k0 k0) eq_refl) in Hk.
    discriminate.
Qed.

Lemma default_config_filled :
  Forall (fun '(_, d) => empty_or_none d = false) default_config.
Proof. repeat constructor. Qed.

Lemma missing_keys_filled (cfg : config) :
  Forall (fun '(_, d) => empty_or_none d = false) (missing_keys cfg).
Proof.
  unfold missing_keys. apply Forall_forall. intros x Hx. apply filter_In in Hx.
  destruct Hx as [Hx _]. exact (proj1 (Forall_forall _ _) default_config_filled x Hx).
Qed.

Lemma fill_missing_keeps_filled ask http (missing cfg : config) (k : str) :
  Forall (fun '(_, d) => empty_or_none d = false) missing ->
  key_filled cfg k -> key_filled (fill_missing ask http cfg missing) k.
Proof.
  revert cfg; induction missing as [|[key d] missing IH]; intros cfg Hm Hk; [exact Hk|].
  inversion Hm as [|? ? Hd Hrest]; subst. simpl. apply (IH _ Hrest).
  unfold key_filled. rewrite dict_lookup_set.
  destruct (str_eqb k key); [|exact Hk].
  destruct (empty_or_none (prompt_value ask http cfg key d)) eqn:He;
    [exists d|eexists]; split; try reflexivity; assumption.
Qed.

Lemma fill_missing_fills ask http (missing cfg : config) (k : str) (d : pyval) :
  Forall (fun '(_, d) => empty_or_none d = false) missing ->
  In (k, d) missing -> key_filled (fill_missing ask http cfg missing) k.
Proof.
  revert cfg; induction missing as [|[key d0] missing IH]; intros cfg Hm Hin; [destruct Hin|].
  inversion Hm as [|? ? Hd Hrest]; subst. simpl.
  destruct Hin as [[= -> ->]|Hin]; [|exact (IH _ Hrest Hin)].
  apply (fill_missing_keeps_filled ask http _ _ _ Hrest).
  unfold key_filled. rewrite dict_lookup_set, (proj2 (str_eqb_eq k k) eq_refl).
  destruct (empty_or_none (prompt_value ask http cfg k d)) eqn:He;
    [exists d|eexists]; split; try reflexivity; assumption.
Qed.

Lemma fill_missing_other ask http (missing cfg : config) (k : str) :
  ~ In k (map fst missing) ->
  dict_lookup (fill_missing ask http cfg missing) k = dict_lookup cfg k.
Proof.
  revert cfg; induction missing as [|[key d] missing IH]; intros cfg Hk; [reflexivity|].
  simpl in *. rewrite IH; [|tauto]. rewrite dict_lookup_set.
  destruct (str_eqb k key) eqn:He; [|reflexivity].
  apply str_eqb_eq in He. exfalso. apply Hk. left. congruence.
Qed.

Lemma load_config_dict file ask http (cfg : config) :
  load_config file ask http = Ok cfg ->
  exists c0, match file with Some v => v | None => PDict [] end = PDict c0 /\
             cfg = fill_missing ask http c0 (missing_keys c0).
Proof.
  unfold load_config. destruct (match file with Some v => v | None => PDict [] end);
    try discriminate. intros [= <-]. eexists. split; reflexivity.
Qed.

Lemma load_config_filled (file : option pyval) (ask : str -> option str)
  (http : pyval -> pyval -> option pyval) (cfg : config) :
  load_config file ask http = Ok cfg ->
  forall k d, In (k, d) default_config -> key_filled cfg k.
Proof.
  intros Hl k d Hin. destruct (load_config_dict _ _ _ _ Hl) as (c0 & _ & ->).
  destruct (dict_lookup c0 k) as [v|] eqn:Hk.
  - destruct (empty_or_none v) eqn:Hv.
    + apply (fill_missing_fills ask http _ _ k d (missing_keys_filled c0)).
      unfold missing_keys. apply filter_In. split; [exact Hin|]. rewrite Hk. exact Hv.
    + apply (fill_missing_keeps_filled ask http _ _ k (missing_keys_filled c0)).
      exists v. split; assumption.
  - apply (fill_missing_fills ask http _ _ k d (missing_keys_filled c0)).
    unfold missing_keys. apply filter_In. split; [exact Hin|]. rewrite Hk. reflexivity.
Qed.

(** X7: when [_load_config] returns, every key of [DEFAULT_CONFIG] is in
    the config with a value other than "" and [None]. *)
Theorem load_config_complete (file : option pyval) (ask : str -> option str)
  (http : pyval -> pyval -> option pyval) (cfg : config) :
  load_config file ask http = Ok cfg ->
  forall k d, In (k, d) default_config -> key_filled cfg k.
Proof. exact (load_config_filled file ask http cfg). Qed.

Lemma load_config_complete_witness :
  load_config (Some (PDict [(S_ "url", PStr [])])) (fun _ => None) (fun _ _ => None) =
    Ok [(S_ "url", PStr (S_ "192.168.0.153")); (S_ "pin", PInt 1234);
        (S_ "timeout", PInt 2); (S_ "last_mode", PStr (S_ "DAB"))] /\
  forall k d, In (k, d) default_config ->
    key_filled [(S_ "url", PStr (S_ "192.168.0.153")); (S_ "pin", PInt 1234);
                (S_ "timeout", PInt 2); (S_ "last_mode", PStr (S_ "DAB"))] k.
Proof.
  assert (H : load_config (Some (PDict [(S_ "url", PStr [])])) (fun _ => None)
                (fun _ _ => None) =
    Ok [(S_ "url", PStr (S_ "192.168.0.153")); (S_ "pin", PInt 1234);
        (S_ "timeout", PInt 2); (S_ "last_mode", PStr (S_ "DAB"))])
    by (vm_compute; reflexivity).
  split; [exact H|]. exact (load_config_complete _ _ _ _ H).
Defined.

(** X8: [_load_config] keeps every value of the file that is neither ""
    nor [None]; when no key of [DEFAULT_CONFIG] is missing it returns the
    file's object as it is, without prompting; a file holding JSON that is
    not an object makes it raise [TypeError]. *)
Theorem load_config_keeps_values (c0 : config) (ask : str -> option str)
  (http : pyval -> pyval -> option pyval) (cfg : config) :
  load_config (Some (PDict c0)) ask http = Ok cfg ->
  (forall k v, dict_lookup c0 k = Some v -> empty_or_none v = false ->
     dict_lookup cfg k = Some v) /\
  (missing_keys c0 = [] -> cfg = c0) /\
  (forall v, (forall d, v <> PDict d) -> load_config (Some v) ask http = Err TypeError).
Proof.
  simpl. intros [= <-]. split; [|split].
  - intros k v Hk Hv. rewrite fill_missing_other; [exact Hk|].
    intros Hin. apply in_map_iff in Hin. destruct Hin as ([k' d] & Hk' & Hin).
    simpl in Hk'. subst k'. unfold missing_keys in Hin. apply filter_In in Hin.
    destruct Hin as [_ Hp]. rewrite Hk, Hv in Hp. discriminate.
  - intros ->. reflexivity.
  - intros v Hv. unfold load_config.
    destruct v; try reflexivity. exfalso. exact (Hv d eq_refl).
Qed.

Lemma load_config_keeps_values_witness :
  load_config (Some (PDict [(S_ "url", PStr (S_ "radio")); (S_ "pin", PNone)]))
    (fun _ => Some (S_ "42")) (fun _ _ => None) =
    Ok [(S_ "url", PStr (S_ "radio")); (S_ "pin", PInt 42); (S_ "timeout", PInt 42);
        (S_ "last_mode", PStr (S_ "DAB"))] /\
  (forall k v, dict_lookup [(S_ "url", PStr (S_ "radio")); (S_ "pin", PNone)] k = Some v ->
     empty_or_none v = false ->
     dict_lookup [(S_ "url", PStr (S_ "radio")); (S_ "pin", PInt 42); (S_ "timeout", PInt 42);
                  (S_ "last_mode", PStr (S_ "DAB"))] k = Some v) /\
  (missing_keys [(S_ "url", PStr (S_ "radio")); (S_ "pin", PNone)] = [] ->
   [(S_ "url", PStr (S_ "radio")); (S_ "pin", PInt 42); (S_ "timeout", PInt 42);
    (S_ "last_mode", PStr (S_ "DAB"))] = [(S_ "url", PStr (S_ "radio")); (S_ "pin", PNone)]) /\
  (forall v, (forall d, v <> PDict d) ->
     load_config (Some v) (fun _ => Some (S_ "42")) (fun _ _ => None) = Err TypeError).
Proof.
  assert (H : load_config (Some (PDict [(S_ "url", PStr (S_ "radio")); (S_ "pin", PNone)]))
    (fun _ => Some (S_ "42")) (fun _ _ => None) =
    Ok [(S_ "url", PStr (S_ "radio")); (S_ "pin", PInt 42); (S_ "timeout", PInt 42);
        (S_ "last_mode", PStr (S_ "DAB"))]) by (vm_compute; reflexivity).
  split; [exact H|]. exact (load_config_keeps_values _ _ _ _ H).
Defined.

(** A prompted integer is never empty, so the [in ("", None)] test keeps it. *)
Lemma or_default_int_answer_or (a : option str) (z : Z) (d : pyval) :
  or_default (int_answer_or a z) d = int_answer_or a z.
Proof.
  unfold or_default, int_answer_or.
  destruct a as [s|]; [destruct (py_int_of_str s)|]; reflexivity.
Qed.

(** X9: without a readable config file, [_load_config] prompts for the four
    keys in order and returns url, pin, timeout and last_mode in that order:
    the url answer (default 192.168.0.153), the pin and timeout answers as
    integers (defaults 1234 and 2), and for last_mode the mode the status
    endpoint reports for the url and pin just entered (default "IRadio"
    when it reports "" or null). The answer typed for last_mode is
    ignored. *)
Theorem load_config_first_run (ask : str -> option str)
  (http : pyval -> pyval -> option pyval) :
  let url := answer_or (ask (S_ "url")) (PStr (S_ "192.168.0.153")) in
  let pin := int_answer_or (ask (S_ "pin")) 1234 in
  let timeout := int_answer_or (ask (S_ "timeout")) 2 in
  load_config None ask http =
    Ok [(S_ "url", url); (S_ "pin", pin); (S_ "timeout", timeout);
        (S_ "last_mode",
         or_default (get_last_mode_from_api http url pin) (PStr (S_ "IRadio")))].
Proof.
  cbv zeta.
  transitivity (@Ok config py_exc
    [(S_ "url", answer_or (ask (S_ "url")) (PStr (S_ "192.168.0.153")));
     (S_ "pin", or_default (int_answer_or (ask (S_ "pin")) 1234) (PInt 1234));
     (S_ "timeout", or_default (int_answer_or (ask (S_ "timeout")) 2) (PInt 2));
     (S_ "last_mode",
      or_default
        (get_last_mode_from_api http
           (answer_or (ask (S_ "url")) (PStr (S_ "192.168.0.153")))
           (or_default (int_answer_or (ask (S_ "pin")) 1234) (PInt 1234)))
        (PStr (S_ "IRadio")))]).
  - reflexivity.
  - rewrite !or_default_int_answer_or. reflexivity.
Qed.

(** ** The GUI handlers *)

(** X11: on a connected service, [on_mode_change] leaves the service and
    the init flag alone and ends with the config [_save_config] makes of
    the entry texts: the mode name it writes to [last_mode] first is
    overwritten, by "IRadio" when the mode text is not an integer. The
    [set_mode] call with the mode text is issued only when writing the
    file succeeds. *)
Theorem on_mode_change_connected {Handle Preset : Type}
  (g : gui Handle) (w : widgets) (write_ok : bool) :
  is_connected (service_of g) = true ->
  service_of (fst (@on_mode_change Handle Preset g w write_ok)) = service_of g /\
  during_init (fst (@on_mode_change Handle Preset g w write_ok)) = during_init g /\
  (forall k, dict_lookup (config_data (fst (@on_mode_change Handle Preset g w write_ok))) k =
             dict_lookup (save_config (config_data g) (url_text w) (pin_text w)
                            (timeout_text w) (mode_text w)) k) /\
  (py_int_of_str (py_strip (mode_text w)) = None ->
   dict_lookup (config_data (fst (@on_mode_change Handle Preset g w write_ok)))
     (S_ "last_mode") = Some (PStr (S_ "IRadio"))) /\
  snd (@on_mode_change Handle Preset g w write_ok) =
    (if write_ok then Some (SetMode (mode_text w)) else None).
Proof.
  intros Hc. unfold on_mode_change. rewrite Hc. simpl negb. cbv iota.
  assert (Hk : forall k,
    dict_lookup (save_config (dict_set (config_data g) (S_ "last_mode") (PStr (mode_text w)))
                   (url_text w) (pin_text w) (timeout_text w) (mode_text w)) k =
    dict_lookup (save_config (config_data g) (url_text w) (pin_text w)
                   (timeout_text w) (mode_text w)) k).
  { intros k. unfold save_config. rewrite !dict_lookup_set.
    destruct (str_eqb k (S_ "last_mode")); [reflexivity|].
    destruct (str_eqb k (S_ "timeout")); [reflexivity|].
    destruct (str_eqb k (S_ "pin")); [reflexivity|].
    destruct (str_eqb k (S_ "url")); reflexivity. }
  destruct write_ok; simpl; (split; [reflexivity|]); (split; [reflexivity|]);
    (split; [exact Hk|]); (split; [|reflexivity]); intros Hm;
    rewrite Hk; unfold save_config; rewrite dict_lookup_set; simpl;
    unfold int_or; rewrite Hm; reflexivity.
Qed.

Lemma on_mode_change_connected_witness :
  let g := {| service_of := demo_connected; during_init := false;
              config_data := default_config |} in
  let w := {| url_text := S_ "192.168.0.153"; pin_text := S_ "1234";
              timeout_text := S_ "2"; mode_text := S_ "DAB" |} in
  is_connected (service_of g) = true /\
  py_int_of_str (py_strip (mode_text w)) = None /\
  snd (@on_mode_change nat nat g w true) = Some (SetMode (S_ "DAB")) /\
  dict_lookup (config_data (fst (@on_mode_change nat nat g w true))) (S_ "last_mode") =
    Some (PStr (S_ "IRadio")).
Proof.
  cbv zeta.
  assert (Hc : is_connected (service_of {| service_of := demo_connected; during_init := false;
              config_data := default_config |}) = true) by reflexivity.
  assert (Hm : py_int_of_str (py_strip (mode_text {| url_text := S_ "192.168.0.153";
              pin_text := S_ "1234"; timeout_text := S_ "2"; mode_text := S_ "DAB" |})) = None)
    by (vm_compute; reflexivity).
  destruct (@on_mode_change_connected nat nat _ {| url_text := S_ "192.168.0.153";
              pin_text := S_ "1234"; timeout_text := S_ "2"; mode_text := S_ "DAB" |}
              true Hc) as (_ & _ & _ & Hl & Hs).
  split; [exact Hc|]. split; [exact Hm|]. split; [exact Hs|]. exact (Hl Hm).
Defined.

(** X13: on a connected service outside init, a slider reading [q]
    between 0 and 40 (the slider's range) makes [on_volume_change] issue
    [set_volume] with the integer part of [q], itself between 0 and 40. *)
Theorem on_volume_change_in_range {Handle Preset : Type} (g : gui Handle) (q : QArith_base.Q) :
  is_connected (service_of g) = true -> during_init g = false ->
  QArith_base.Qle (QArith_base.inject_Z 0) q -> QArith_base.Qle q (QArith_base.inject_Z 40) ->
  exists v, @on_volume_change Handle Preset g q = Some (SetVolume v) /\
    (0 <= v <= 40)%Z /\
    QArith_base.Qle (QArith_base.inject_Z v) q /\
    QArith_base.Qlt q (QArith_base.inject_Z (v + 1)%Z).
Proof.
  intros Hc Hi H0 H40. exists (int_of_float q).
  split; [unfold on_volume_change; rewrite Hc, Hi; reflexivity|].
  destruct q as [n d].
  unfold int_of_float, QArith_base.Qle, QArith_base.Qlt, QArith_base.inject_Z in *.
  cbn [QArith_base.Qnum QArith_base.Qden] in *.
  assert (Hd : (0 < Z.pos d)%Z) by reflexivity.
  rewrite Z.quot_div_nonneg by lia.
  split; [split|split].
  - apply Z.div_pos; lia.
  - apply Z.div_le_upper_bound; lia.
  - pose proof (Z.mul_div_le n (Z.pos d) Hd). lia.
  - pose proof (Z.mul_succ_div_gt n (Z.pos d) Hd). unfold Z.succ in *. lia.
Qed.

Lemma on_volume_change_in_range_witness :
  let g := {| service_of := demo_connected; during_init := false; config_data := [] |} in
  is_connected (service_of g) = true /\ during_init g = false /\
  QArith_base.Qle (QArith_base.inject_Z 0) (QArith_base.Qmake 53 2) /\
  QArith_base.Qle (QArith_base.Qmake 53 2) (QArith_base.inject_Z 40) /\
  @on_volume_change nat nat g (QArith_base.Qmake 53 2) = Some (SetVolume 26) /\
  exists v, @on_volume_change nat nat g (QArith_base.Qmake 53 2) = Some (SetVolume v) /\
    (0 <= v <= 40)%Z /\
    QArith_base.Qle (QArith_base.inject_Z v) (QArith_base.Qmake 53 2) /\
    QArith_base.Qlt (QArith_base.Qmake 53 2) (QArith_base.inject_Z (v + 1)%Z).
Proof.
  cbv zeta.
  assert (H0 : QArith_base.Qle (QArith_base.inject_Z 0) (QArith_base.Qmake 53 2))
    by (unfold QArith_base.Qle; simpl; lia).
  assert (H40 : QArith_base.Qle (QArith_base.Qmake 53 2) (QArith_base.inject_Z 40))
    by (unfold QArith_base.Qle; simpl; lia).
  split; [reflexivity|]. split; [reflexivity|]. split; [exact H0|]. split; [exact H40|].
  split; [reflexivity|].
  exact (@on_volume_change_in_range nat nat
           {| service_of := demo_connected; during_init := false; config_data := [] |}
           (QArith_base.Qmake 53 2) eq_refl eq_refl H0 H40).
Defined.

(** ** The device reads of [after_ok] *)

Section AfterOkLemmas.

Context {Handle Cause Value Preset : Type}.
Context (py_bool : Value -> bool) (py_int : Value -> option Z).
Variable T : @transport Handle Cause Value Preset.

Lemma guarded_disconnected (s : @service Handle) (c : @cmd Preset) :
  is_connected s = false -> guarded py_bool py_int T s c = (Err NotConnected, []).
Proof. intros Hc. unfold guarded, require. rewrite Hc. reflexivity. Qed.

Lemma guarded_shape (s : @service Handle) (c : @cmd Preset) :
  (exists e, guarded py_bool py_int T s c = (Err e, [])) \/
  (exists r, guarded py_bool py_int T s c = (r, [ECall c])).
Proof.
  unfold guarded. destruct (require s) as [a|e]; [right|left; exists e; reflexivity].
  destruct (t_call T a c); eexists; reflexivity.
Qed.

Lemma guarded_ok (s : @service Handle) (c : @cmd Preset) (r : ret) ev :
  guarded py_bool py_int T s c = (Ok r, ev) ->
  exists a v, api s = Some a /\ t_call T a c = Ok v /\
              coerce (Cause:=Cause) py_bool py_int c v = Ok r /\ ev = [ECall c].
Proof.
  unfold guarded, require. destruct (is_connected s); [|discriminate].
  destruct (api s) as [a|]; [|discriminate].
  destruct (t_call T a c) as [v|e] eqn:Hv; [|discriminate].
  intros [= Hr <-]. exists a, v. repeat split; assumption.
Qed.

End AfterOkLemmas.

(** The reads of [after_ok]'s worker: a prefix of friendly name, volume,
    power and modes, and the mode selection once all four succeeded. *)
Lemma after_ok_init_spec {Handle Cause Value Preset : Type}
  (py_bool : Value -> bool) (py_int : Value -> option Z)
  (py_list : Value -> option (list Value)) (py_eq : Value -> pyval -> bool)
  (T : @transport Handle Cause Value Preset) (s : @service Handle) (cfg : config) :
  (exists n, snd (after_ok_init py_bool py_int py_list py_eq T s cfg) =
     firstn n [ECall GetFriendlyName; ECall GetVolume; ECall GetPower; ECall GetModes]) /\
  (is_connected s = false -> after_ok_init py_bool py_int py_list py_eq T s cfg = (None, [])) /\
  (forall sel, fst (after_ok_init py_bool py_int py_list py_eq T s cfg) = Some sel ->
     snd (after_ok_init py_bool py_int py_list py_eq T s cfg) =
       [ECall GetFriendlyName; ECall GetVolume; ECall GetPower; ECall GetModes] /\
     exists a v modes, api s = Some a /\ t_call T a GetModes = Ok v /\
       py_list v = Some modes /\
       sel = select_mode py_eq (dict_get cfg (S_ "last_mode") PNone) modes).
Proof.
  split; [|split].
  - unfold after_ok_init.
    destruct (guarded_shape py_bool py_int T s GetFriendlyName) as [[e1 ->]|[r1 ->]];
      [exists 0; reflexivity|].
    destruct r1 as [r1|e1]; [|exists 1; reflexivity].
    destruct (guarded_shape py_bool py_int T s GetVolume) as [[e2 ->]|[r2 ->]];
      [exists 1; reflexivity|].
    destruct r2 as [r2|e2]; [|exists 2; reflexivity].
    destruct (guarded_shape py_bool py_int T s GetPower) as [[e3 ->]|[r3 ->]];
      [exists 2; reflexivity|].
    destruct r3 as [r3|e3]; [|exists 3; reflexivity].
    destruct (guarded_shape py_bool py_int T s GetModes) as [[e4 ->]|[r4 ->]];
      [exists 3; reflexivity|].
    exists 4. destruct r4 as [[v| | |]|e4]; try reflexivity.
    destruct (py_list v); reflexivity.
  - intros Hc. unfold after_ok_init. rewrite !guarded_disconnected by exact Hc.
    reflexivity.
  - intros sel. unfold after_ok_init.
    destruct (guarded py_bool py_int T s GetFriendlyName) as [[r1|e1] ev1] eqn:G1;
      [|discriminate].
    destruct (guarded py_bool py_int T s GetVolume) as [[r2|e2] ev2] eqn:G2;
      [|discriminate].
    destruct (guarded py_bool py_int T s GetPower) as [[r3|e3] ev3] eqn:G3;
      [|discriminate].
    destruct (guarded py_bool py_int T s GetModes) as [[[v| | |]|e4] ev4] eqn:G4;
      try discriminate.
    destruct (py_list v) as [modes|] eqn:Hl; [|discriminate].
    simpl. intros [= <-].
    destruct (guarded_ok _ _ _ _ _ _ _ G1) as (_ & _ & _ & _ & _ & ->).
    destruct (guarded_ok _ _ _ _ _ _ _ G2) as (_ & _ & _ & _ & _ & ->).
    destruct (guarded_ok _ _ _ _ _ _ _ G3) as (_ & _ & _ & _ & _ & ->).
    destruct (guarded_ok _ _ _ _ _ _ _ G4) as (a & v' & Ha & Hv & Hco & ->).
    simpl in Hco. injection Hco as <-.
    split; [reflexivity|]. exists a, v', modes. repeat split; assumption.
Qed.

(** ** Integer entry texts *)

Lemma int_digits_cons_digit (acc d : Z) (c : ascii) (t : str) :
  digit_val c = Some d -> int_digits acc false (c :: t) = int_digits (acc * 10 + d) false t.
Proof. intros Hd. simpl. rewrite Hd. reflexivity. Qed.

Lemma int_digits_uint (u : Decimal.uint) (acc : nat) :
  int_digits (Z.of_nat acc) false (S_ (NilEmpty.string_of_uint u)) =
    Some (Z.of_nat (Nat.of_uint_acc u acc)).
Proof.
  revert acc; induction u as [|u IH|u IH|u IH|u IH|u IH|u IH|u IH|u IH|u IH|u IH];
    intros acc; [reflexivity|..];
    cbn [S_ NilEmpty.string_of_uint list_ascii_of_string Nat.of_uint_acc];
    fold (S_ (NilEmpty.string_of_uint u));
    erewrite int_digits_cons_digit by reflexivity;
    match goal with
    | |- int_digits ?z false _ = Some (Z.of_nat (Nat.of_uint_acc u ?m)) =>
        replace z with (Z.of_nat m) by (rewrite Nat.tail_mul_spec; simpl; lia)
    end; apply IH.
Qed.

Lemma digits_not_space (u : Decimal.uint) :
  Forall (fun c => is_py_space c = false) (S_ (NilEmpty.string_of_uint u)).
Proof. induction u; simpl; repeat constructor; assumption. Qed.

Lemma digits_not_int_space (u : Decimal.uint) :
  Forall (fun c => is_int_space c = false) (S_ (NilEmpty.string_of_uint u)).
Proof. induction u; simpl; repeat constructor; assumption. Qed.

Lemma digits_are_digits (u : Decimal.uint) :
  Forall (fun c => (match digit_val c with Some _ => true | None => false end) = true)
    (S_ (NilEmpty.string_of_uint u)).
Proof. induction u; simpl; repeat constructor; assumption. Qed.

Lemma filter_all {A : Type} (f : A -> bool) (l : list A) :
  Forall (fun x => f x = true) l -> filter f l = l.
Proof.
  induction l as [|x l IH]; intros H; [reflexivity|].
  inversion H as [|? ? Hx Hl]; subst. simpl. rewrite Hx, (IH Hl). reflexivity.
Qed.

Lemma rstrip_by_none (p : ascii -> bool) (s : str) :
  Forall (fun c => p c = false) s -> rstrip_by p s = s.
Proof.
  induction s as [|c s IH]; intros Hs; [reflexivity|].
  inversion Hs as [|? ? Hc Hs']; subst. simpl. rewrite (IH Hs').
  destruct s; [rewrite Hc|]; reflexivity.
Qed.

Lemma py_strip_uint (u : Decimal.uint) :
  py_strip (S_ (NilEmpty.string_of_uint u)) = S_ (NilEmpty.string_of_uint u).
Proof.
  unfold py_strip. pose proof (digits_not_space u) as Hd.
  assert (Hl : lstrip (S_ (NilEmpty.string_of_uint u)) = S_ (NilEmpty.string_of_uint u)).
  { destruct (S_ (NilEmpty.string_of_uint u)) as [|c t]; [reflexivity|].
    inversion Hd as [|? ? Hc _]; subst. simpl. rewrite Hc. reflexivity. }
  rewrite Hl. apply rstrip_by_none. exact Hd.
Qed.

Lemma int_strip_uint (u : Decimal.uint) :
  int_strip (S_ (NilEmpty.string_of_uint u)) = S_ (NilEmpty.string_of_uint u).
Proof.
  unfold int_strip. pose proof (digits_not_int_space u) as Hd.
  assert (Hl : lstrip_by is_int_space (S_ (NilEmpty.string_of_uint u)) =
               S_ (NilEmpty.string_of_uint u)).
  { destruct (S_ (NilEmpty.string_of_uint u)) as [|c t]; [reflexivity|].
    inversion Hd as [|? ? Hc _]; subst. simpl. rewrite Hc. reflexivity. }
  rewrite Hl. apply rstrip_by_none. exact Hd.
Qed.

Lemma py_int_of_str_of_nat (n : nat) :
  py_int_of_str (str_of_nat n) =
    if List.length (str_of_nat n) <=? max_str_digits then Some (Z.of_nat n) else None.
Proof.
  unfold str_of_nat, py_int_of_str. cbv zeta. rewrite int_strip_uint.
  unfold digit_count. rewrite filter_all by apply digits_are_digits.
  rewrite Nat.leb_antisym.
  destruct (max_str_digits <? List.length (S_ (NilEmpty.string_of_uint (Nat.to_uint n))));
    [reflexivity|]. simpl negb. cbv iota.
  rewrite <- (DecimalNat.Unsigned.of_to n) at 2.
  destruct (Nat.to_uint n) as [|u|u|u|u|u|u|u|u|u|u] eqn:E.
  { exfalso. pose proof (DecimalNat.Unsigned.of_to n) as Hn. rewrite E in Hn.
    simpl in Hn. subst n. discriminate E. }
  all: unfold Nat.of_uint; rewrite <- (int_digits_uint _ 0); reflexivity.
Qed.

(** X15: the pin and timeout entries start as [str()] of the config's
    values. When such an entry holds [str(n)] of a non-negative integer
    [n] (left unchanged), [_save_config] stores [n] back when [str(n)] has
    at most 4300 digits; a longer one makes [int()] raise [ValueError] and
    the default (1234 for the pin, 2 for the timeout) is stored. *)
Theorem save_config_int_round_trip (cfg : config) (url_t mode_t : str) (p t : nat) :
  dict_lookup (save_config cfg url_t (str_of_nat p) (str_of_nat t) mode_t) (S_ "pin") =
    Some (if List.length (str_of_nat p) <=? max_str_digits then PInt (Z.of_nat p)
          else PInt 1234) /\
  dict_lookup (save_config cfg url_t (str_of_nat p) (str_of_nat t) mode_t) (S_ "timeout") =
    Some (if List.length (str_of_nat t) <=? max_str_digits then PInt (Z.of_nat t)
          else PInt 2).
Proof.
  unfold save_config, int_or, str_of_nat. rewrite !dict_lookup_set. simpl str_eqb.
  rewrite !py_strip_uint.
  fold (str_of_nat p) (str_of_nat t). rewrite !py_int_of_str_of_nat.
  split; [destruct (List.length (str_of_nat p) <=? max_str_digits)
         |destruct (List.length (str_of_nat t) <=? max_str_digits)]; reflexivity.
Qed.

(** ** Connecting from the GUI *)

(** X16: when the pin or the timeout entry does not hold an integer,
    [on_connect]'s worker fails with [ValueError] before [connect] runs:
    no transport call is made and the service, with any session it holds,
    is left as it was. *)
Theorem do_connect_bad_number {Handle Cause Value Preset : Type} (afsapi_loaded : bool)
  (T : @transport Handle Cause Value Preset) (s : @service Handle) (w : widgets) :
  py_int_of_str (py_strip (pin_text w)) = None \/
  py_int_of_str (py_strip (timeout_text w)) = None ->
  do_connect (Preset:=Preset) afsapi_loaded T s w = (Err ValueErr, s, []).
Proof.
  unfold do_connect. cbv zeta.
  intros [Hp|Ht]; [rewrite Hp; reflexivity|].
  destruct (py_int_of_str (py_strip (pin_text w))); [rewrite Ht|]; reflexivity.
Qed.

Lemma do_connect_bad_number_witness :
  let w := {| url_text := S_ "192.168.0.153"; pin_text := S_ "12a4";
              timeout_text := S_ " 2 "; mode_text := [] |} in
  (py_int_of_str (py_strip (pin_text w)) = None \/
   py_int_of_str (py_strip (timeout_text w)) = None) /\
  do_connect true demo_T demo_connected w = (Err ValueErr, demo_connected, []).
Proof.
  cbv zeta.
  assert (H : py_int_of_str (py_strip (S_ "12a4")) = None \/
              py_int_of_str (py_strip (S_ " 2 ")) = None)
    by (left; vm_compute; reflexivity).
  split; [exact H|].
  exact (do_connect_bad_number true demo_T demo_connected
           {| url_text := S_ "192.168.0.153"; pin_text := S_ "12a4";
              timeout_text := S_ " 2 "; mode_text := [] |} H).
Defined.

Lemma missing_keys_none (cfg : config) :
  (forall k d, In (k, d) default_config -> key_filled cfg k) -> missing_keys cfg = [].
Proof.
  intros Hf. unfold missing_keys.
  assert (Hg : forall l, incl l default_config ->
    filter (fun '(k, _) => match dict_lookup cfg k with
                           | None => true | Some v => empty_or_none v end) l = []).
  { induction l as [|[k d] l IH]; intros Hl; [reflexivity|]. simpl.
    destruct (Hf k d (Hl _ (or_introl eq_refl))) as (v & Hv & He).
    rewrite Hv, He. apply IH. intros x Hx. apply Hl. right. exact Hx. }
  apply Hg. intros x Hx. exact Hx.
Qed.

(** X17: a config [_load_config] returned, read back from the file it
    writes, is returned unchanged by the next [_load_config], which then
    asks nothing and makes no status request. *)
Theorem load_config_reload (file : option pyval) (ask ask' : str -> option str)
  (http http' : pyval -> pyval -> option pyval) (cfg : config) :
  load_config file ask http = Ok cfg ->
  load_config (Some (PDict cfg)) ask' http' = Ok cfg.
Proof.
  intros Hl. unfold load_config.
  rewrite (missing_keys_none cfg (load_config_filled file ask http cfg Hl)).
  reflexivity.
Qed.

Lemma load_config_reload_witness :
  load_config None (fun _ => Some (S_ "7")) (fun _ _ => None) =
    Ok [(S_ "url", PStr (S_ "7")); (S_ "pin", PInt 7); (S_ "timeout", PInt 7);
        (S_ "last_mode", PStr (S_ "DAB"))] /\
  load_config (Some (PDict [(S_ "url", PStr (S_ "7")); (S_ "pin", PInt 7);
                            (S_ "timeout", PInt 7); (S_ "last_mode", PStr (S_ "DAB"))]))
    (fun _ => None) (fun _ _ => None) =
    Ok [(S_ "url", PStr (S_ "7")); (S_ "pin", PInt 7); (S_ "timeout", PInt 7);
        (S_ "last_mode", PStr (S_ "DAB"))].
Proof.
  assert (H : load_config None (fun _ => Some (S_ "7")) (fun _ _ => None) =
    Ok [(S_ "url", PStr (S_ "7")); (S_ "pin", PInt 7); (S_ "timeout", PInt 7);
        (S_ "last_mode", PStr (S_ "DAB"))]) by (vm_compute; reflexivity).
  split; [exact H|].
  exact (load_config_reload None _ (fun _ => None) _ (fun _ _ => None) _ H).
Defined.

Lemma guarded_connected {Handle Cause Value Preset : Type}
  (py_bool : Value -> bool) (py_int : Value -> option Z)
  (T : @transport Handle Cause Value Preset) (s : @service Handle) (c : @cmd Preset) :
  is_connected s = true -> exists r, guarded py_bool py_int T s c = (r, [ECall c]).
Proof.
  intros Hc. unfold guarded, require. rewrite Hc.
  destruct (api s) as [a|] eqn:Ha.
  - destruct (t_call T a c); eexists; reflexivity.
  - unfold is_connected in Hc. rewrite Ha, andb_false_r in Hc. discriminate.
Qed.

Lemma after_ok_init_first {Handle Cause Value Preset : Type}
  (py_bool : Value -> bool) (py_int : Value -> option Z)
  (py_list : Value -> option (list Value)) (py_eq : Value -> pyval -> bool)
  (T : @transport Handle Cause Value Preset) (s : @service Handle) (cfg : config) :
  exists rest, snd (after_ok_init py_bool py_int py_list py_eq T s cfg) =
    snd (guarded py_bool py_int T s GetFriendlyName) ++ rest.
Proof.
  unfold after_ok_init.
  destruct (guarded py_bool py_int T s GetFriendlyName) as [[r1|e1] ev1];
    [|exists []; rewrite app_nil_r; reflexivity].
  destruct (guarded py_bool py_int T s GetVolume) as [[r2|e2] ev2]; [|eexists; reflexivity].
  destruct (guarded py_bool py_int T s GetPower) as [[r3|e3] ev3]; [|eexists; reflexivity].
  destruct (guarded py_bool py_int T s GetModes) as [[[v| | |]|e4] ev4];
    try (eexists; reflexivity).
  destruct (py_list v); eexists; reflexivity.
Qed.

Lemma after_ok_first {Handle Cause Value Preset : Type}
  (py_bool : Value -> bool) (py_int : Value -> option Z)
  (py_list : Value -> option (list Value)) (py_eq : Value -> pyval -> bool)
  (T : @transport Handle Cause Value Preset) (tk_str : pyval -> str) (py_str : Value -> str)
  (s : @service Handle) (cfg : config) (w : widgets) (write_ok : bool) :
  exists rest, snd (after_ok py_bool py_int py_list py_eq T tk_str py_str s cfg w write_ok) =
    snd (guarded py_bool py_int T s GetFriendlyName) ++ rest.
Proof.
  destruct (after_ok_init_first py_bool py_int py_list py_eq T s cfg) as [rest Hr].
  unfold after_ok.
  destruct (after_ok_init py_bool py_int py_list py_eq T s cfg) as [[sel|] ev].
  - simpl in Hr. subst ev. destruct write_ok.
    + eexists. simpl. rewrite <- app_assoc. reflexivity.
    + exists rest. reflexivity.
  - exists rest. exact Hr.
Qed.

(** X18: when [on_connect]'s worker succeeds, the pin and timeout texts
    were integers, the service is connected with them at one of the
    candidates of the stripped url text, and the [after_ok] that follows
    (whatever the entries then hold and whether the config write
    succeeds) reads the radio's friendly name first. *)
Theorem do_connect_then_init {Handle Cause Value Preset : Type}
  (py_bool : Value -> bool) (py_int : Value -> option Z)
  (py_list : Value -> option (list Value)) (py_eq : Value -> pyval -> bool)
  (T : @transport Handle Cause Value Preset) (s s' : @service Handle) (w : widgets)
  (tk_str : pyval -> str) (py_str : Value -> str) (w' : widgets) (write_ok : bool)
  (cfg : config) (u : unit) (ev : list (@event Preset)) :
  do_connect true T s w = (Ok u, s', ev) ->
  exists p t cands base,
    py_int_of_str (py_strip (pin_text w)) = Some p /\
    py_int_of_str (py_strip (timeout_text w)) = Some t /\
    normalize_candidates (py_strip (url_text w)) = Some cands /\
    In base cands /\ url_used s' = Some base /\ pin s' = p /\ timeout s' = t /\
    is_connected s' = true /\
    exists rest, snd (after_ok py_bool py_int py_list py_eq T tk_str py_str s' cfg w' write_ok) =
                 ECall GetFriendlyName :: rest.
Proof.
  intros H. unfold do_connect in H. cbv zeta in H.
  destruct (py_int_of_str (py_strip (pin_text w))) as [p|] eqn:Hp; [|discriminate].
  destruct (py_int_of_str (py_strip (timeout_text w))) as [t|] eqn:Ht; [|discriminate].
  destruct (connect true T s (py_strip (url_text w)) p t) as [[[u'|e] s1] ev1] eqn:Hc;
    [|discriminate].
  injection H as _ <- _.
  unfold connect in Hc. cbn [negb] in Hc. cbv zeta iota in Hc.
  destruct (normalize_candidates (py_strip (url_text w))) as [cands|] eqn:Hn;
    [|discriminate].
  pose proof (connect_loop_cases_in T cands
    {| api := None; connected := false; url_used := None; pin := p; timeout := t |} None)
    as Hcl.
  destruct (connect_loop T cands
    {| api := None; connected := false; url_used := None; pin := p; timeout := t |} None)
    as [[s2 le] ev2].
  destruct Hcl as [->|(a & base & Hin & _ & ->)]; [discriminate|].
  simpl in Hc. injection Hc. intros; subst.
  assert (Hic : is_connected {| api := Some a; connected := true; url_used := Some base;
                                pin := p; timeout := t |} = true) by reflexivity.
  exists p, t, cands, base. do 8 (split; [assumption || reflexivity|]).
  destruct (after_ok_first py_bool py_int py_list py_eq T tk_str py_str
    {| api := Some a; connected := true; url_used := Some base; pin := p; timeout := t |}
    cfg w' write_ok) as [rest Hr].
  destruct (guarded_connected py_bool py_int T _ GetFriendlyName Hic) as [r Hg].
  rewrite Hg in Hr. exists rest. exact Hr.
Qed.

Lemma do_connect_then_init_witness :
  let w := {| url_text := S_ " 192.168.0.153 "; pin_text := S_ "1234";
              timeout_text := S_ "2"; mode_text := [] |} in
  do_connect true demo_T (@init nat) w =
    (Ok tt, demo_connected,
     [ECreate (S_ "http://192.168.0.153:80/device");
      ECreate (S_ "http://192.168.0.153:80/fsapi"); ECall GetFriendlyName]) /\
  exists p t cands base,
    py_int_of_str (py_strip (pin_text w)) = Some p /\
    py_int_of_str (py_strip (timeout_text w)) = Some t /\
    normalize_candidates (py_strip (url_text w)) = Some cands /\
    In base cands /\ url_used demo_connected = Some base /\ pin demo_connected = p /\
    timeout demo_connected = t /\ is_connected demo_connected = true /\
    exists rest, snd (after_ok demo_bool demo_int (fun n => Some [n]) (fun _ _ => false)
                        demo_T (fun _ => S_ "?") (fun _ => S_ "FM") demo_connected
                        default_config w false) =
                 ECall GetFriendlyName :: rest.
Proof.
  cbv zeta.
  assert (H : do_connect true demo_T (@init nat)
    {| url_text := S_ " 192.168.0.153 "; pin_text := S_ "1234";
       timeout_text := S_ "2"; mode_text := [] |} =
    (Ok tt, demo_connected,
     [ECreate (S_ "http://192.168.0.153:80/device");
      ECreate (S_ "http://192.168.0.153:80/fsapi"); ECall GetFriendlyName]))
    by (vm_compute; reflexivity).
  split; [exact H|].
  exact (do_connect_then_init demo_bool demo_int (fun n => Some [n]) (fun _ _ => false)
           demo_T _ _ _ (fun _ => S_ "?") (fun _ => S_ "FM") _ false default_config _ _ H).
Defined.

(** X14: [after_ok] reads the device in the order friendly name, volume,
    power, modes, and, once the config is written, the presets; it stops
    at the first step that fails, so its transport calls are a prefix of
    these five reads and never a command that changes the device. On a
    service that is not connected it makes no call, leaves the config as
    it was and shows the error. When it completes, all five reads were
    made, the combobox shows the config's [last_mode] if the radio reports
    it, else the first reported mode, else its old text, and the config
    holds the saved entry and combobox texts. When the config file cannot
    be written, the error is shown and [get_presets] is not called. *)
Theorem after_ok_reads {Handle Cause Value Preset : Type}
  (py_bool : Value -> bool) (py_int : Value -> option Z)
  (py_list : Value -> option (list Value)) (py_eq : Value -> pyval -> bool)
  (T : @transport Handle Cause Value Preset) (tk_str : pyval -> str) (py_str : Value -> str)
  (s : @service Handle) (cfg : config) (w : widgets) (write_ok : bool) :
  let r := after_ok py_bool py_int py_list py_eq T tk_str py_str s cfg w write_ok in
  (exists n, snd r = firstn n [ECall GetFriendlyName; ECall GetVolume; ECall GetPower;
                               ECall GetModes; ECall GetPresets]) /\
  (is_connected s = false -> r = (None, cfg, [])) /\
  (forall sel, fst (fst r) = Some sel ->
     snd r = [ECall GetFriendlyName; ECall GetVolume; ECall GetPower; ECall GetModes;
              ECall GetPresets] /\
     snd (fst r) = save_config cfg (url_text w) (pin_text w) (timeout_text w)
                     (combo_text tk_str py_str sel (mode_text w)) /\
     exists a v modes, api s = Some a /\ t_call T a GetModes = Ok v /\
       py_list v = Some modes /\
       sel = select_mode py_eq (dict_get cfg (S_ "last_mode") PNone) modes) /\
  (write_ok = false -> fst (fst r) = None /\ ~ In (ECall GetPresets) (snd r)).
Proof.
  cbv zeta.
  destruct (after_ok_init_spec py_bool py_int py_list py_eq T s cfg) as (H1 & H2 & H3).
  unfold after_ok.
  destruct (is_connected s) eqn:Hc.
  2:{ rewrite (H2 eq_refl). split; [exists 0; reflexivity|].
      split; [reflexivity|]. split; [discriminate|]. intros _. split; [reflexivity|].
      simpl. tauto. }
  destruct (after_ok_init py_bool py_int py_list py_eq T s cfg) as [[sel|] ev].
  - destruct (H3 sel eq_refl) as [Hev Hsel]. simpl in Hev. subst ev.
    destruct (guarded_connected py_bool py_int T s GetPresets Hc) as [r Hg].
    rewrite Hg. destruct write_ok.
    + split; [exists 5; reflexivity|]. split; [discriminate|].
      split; [|discriminate].
      intros sel' [= <-]. split; [reflexivity|]. split; [reflexivity|]. exact Hsel.
    + split; [exists 4; reflexivity|]. split; [discriminate|].
      split; [discriminate|]. intros _. split; [reflexivity|].
      simpl. intros [H|[H|[H|[H|[]]]]]; discriminate.
  - destruct H1 as [n Hn]. simpl in Hn.
    split.
    { destruct n as [|[|[|[|n]]]];
        [exists 0|exists 1|exists 2|exists 3|exists 4]; simpl; rewrite Hn; try reflexivity.
      simpl. rewrite firstn_nil. reflexivity. }
    split; [discriminate|]. split; [discriminate|]. intros _. split; [reflexivity|].
    simpl. rewrite Hn.
    destruct n as [|[|[|[|n]]]]; simpl; try rewrite firstn_nil; intuition discriminate.
Qed.

Lemma after_ok_reads_witness :
  let w := {| url_text := S_ " 192.168.0.153 "; pin_text := S_ "1234";
              timeout_text := S_ "2"; mode_text := [] |} in
  fst (fst (after_ok demo_bool demo_int (fun n => Some [n; 3]) (fun _ _ => false) demo_T
              (fun _ => S_ "?") (fun _ => S_ "0") demo_connected default_config w true)) =
    Some (SelFirst 0) /\
  snd (after_ok demo_bool demo_int (fun n => Some [n; 3]) (fun _ _ => false) demo_T
         (fun _ => S_ "?") (fun _ => S_ "0") demo_connected default_config w true) =
    [ECall GetFriendlyName; ECall GetVolume; ECall GetPower; ECall GetModes;
     ECall GetPresets] /\
  dict_lookup (snd (fst (after_ok demo_bool demo_int (fun n => Some [n; 3]) (fun _ _ => false)
     demo_T (fun _ => S_ "?") (fun _ => S_ "0") demo_connected default_config w true)))
     (S_ "last_mode") = Some (PInt 0).
Proof.
  cbv zeta.
  assert (H : fst (fst (after_ok demo_bool demo_int (fun n => Some [n; 3]) (fun _ _ => false)
    demo_T (fun _ => S_ "?") (fun _ => S_ "0") demo_connected default_config
    {| url_text := S_ " 192.168.0.153 "; pin_text := S_ "1234";
       timeout_text := S_ "2"; mode_text := [] |} true)) = Some (SelFirst 0))
    by (vm_compute; reflexivity).
  destruct (after_ok_reads demo_bool demo_int (fun n => Some [n; 3]) (fun _ _ => false)
              demo_T (fun _ => S_ "?") (fun _ => S_ "0") demo_connected default_config
              {| url_text := S_ " 192.168.0.153 "; pin_text := S_ "1234";
                 timeout_text := S_ "2"; mode_text := [] |} true) as (_ & _ & H3 & _).
  destruct (H3 (SelFirst 0) H) as (Hev & Hcfg & _).
  split; [exact H|]. split; [exact Hev|]. rewrite Hcfg. vm_compute. reflexivity.
Defined.
